(** * Proxima: the billing and inventory ledger of [proxima/app.py]

    A shallow embedding of the storage schema, the derived-balance
    calculators and the write handlers of the Flask application, followed
    by the properties of the reconciliation logic.

    Modelling conventions.
    - Python [int] is [Z].  Python [float] amounts are modelled by exact
      canonical rationals [Qc]: rounding of binary floating point is outside
      the model, and the decimal literals [0.20] and [1e-6] stand for the
      rationals 1/5 and 1/1000000.
    - A table is the list of its rows in insertion order; a row is a record
      whose fields carry the column names of the source.
    - The storage engine is the one the application configures by default
      (SQLite): primary keys, UNIQUE and NOT NULL are enforced, declared
      foreign keys are not.
    - A request handler is a computation in the monad [M] over the ORM
      session; it is run against the committed database and yields a response
      and the committed database the request leaves behind.  The handlers
      are modelled for a logged-in browser session. *)

From Stdlib Require Import ZArith QArith Qcanon Qcabs List String Ascii Bool Lia.
From Stdlib Require Import Sorting.Permutation DecimalString.
Import ListNotations.

Local Open Scope Z_scope.

(** ** Python and SQL primitives used by the source *)

Module Py.

(** [float(n)] for an integer [n]. *)
Definition float_of_int (n : Z) : Qc := Q2Qc (inject_Z n).

(** [sum(xs)] over integers: a left fold starting at [0]. *)
Definition sum_int (xs : list Z) : Z := fold_left Z.add xs 0.

(** [sum(xs)] over floats: a left fold starting at [0]. *)
Definition sum_float (xs : list Qc) : Qc := fold_left Qcplus xs (Q2Qc 0).

(** [x or d] for an integer [x]: [0] is falsy. *)
Definition or_int (x d : Z) : Z := if x =? 0 then d else x.

(** [x or d] for a float [x]: [0.0] is falsy. *)
Definition or_float (x d : Qc) : Qc := if Qc_eq_dec x (Q2Qc 0) then d else x.

(** The truth value of an integer. *)
Definition truthy (n : Z) : bool := negb (n =? 0).

(** [x < y] on floats. *)
Definition ltb (x y : Qc) : bool :=
  match (x ?= y)%Qc with Lt => true | _ => false end.

(** The characters [str.strip()] removes among the ASCII ones. *)
Definition isspace (c : ascii) : bool :=
  let n := N_of_ascii c in
  ((9 <=? n) && (n <=? 13) || (28 <=? n) && (n <=? 32))%N.

Fixpoint lstrip (s : string) : string :=
  match s with
  | String c s' => if isspace c then lstrip s' else s
  | EmptyString => EmptyString
  end.

Fixpoint rstrip (s : string) : string :=
  match s with
  | String c s' =>
      match rstrip s' with
      | EmptyString => if isspace c then EmptyString else String c EmptyString
      | r => String c r
      end
  | EmptyString => EmptyString
  end.

(** [s.strip()]. *)
Definition strip (s : string) : string := rstrip (lstrip s).

End Py.

Module Sql.

(** [SUM(col)] over the selected rows: NULL when no row is selected. *)
Definition sum_int (xs : list Z) : option Z :=
  match xs with
  | [] => None
  | _ => Some (fold_left Z.add xs 0)
  end.

Definition sum_float (xs : list Qc) : option Qc :=
  match xs with
  | [] => None
  | _ => Some (fold_left Qcplus xs (Q2Qc 0))
  end.

(** [COALESCE(v, d)]. *)
Definition coalesce {A : Type} (v : option A) (d : A) : A :=
  match v with
  | Some a => a
  | None => d
  end.

(** [SELECT COUNT] over the selected rows. *)
Definition count {A : Type} (rows : list A) : Z := Z.of_nat (List.length rows).

(** [a JOIN b ON on]: the pairs of rows that satisfy the condition. *)
Definition join {A B : Type} (on : A -> B -> bool)
    (la : list A) (lb : list B) : list (A * B) :=
  flat_map (fun a => map (pair a) (filter (on a) lb)) la.

(** The next value of an integer primary key. *)
Definition next_id (ids : list Z) : Z := 1 + fold_right Z.max 0 ids.

End Sql.

(** ** The models (one module per mapped class) *)

Definition date := Z.

Definition TVA_RATE : Qc := Q2Qc (1 # 5).

Module Client.
Record t := mk {
  id : Z;
  nom_client : string;
  tel : option string;
  adresse : option string;
  ville : option string
}.
End Client.

Module Product.
Record t := mk {
  id : Z;
  ref_produit : string;
  nom_produit : string;
  prix_achat : Qc;
  prix_std : Qc
}.
End Product.

Module StockEntry.
Record t := mk {
  id : Z;
  product_id : Z;
  date : date;
  qte_entree : Z
}.
End StockEntry.

Module Facture.
Record t := mk {
  id : Z;
  numero : string;
  date_vente : date;
  client_id : Z;
  nbr_colis : Z;
  finalized : bool
}.

Definition set_finalized (b : bool) (f : t) : t :=
  mk (id f) (numero f) (date_vente f) (client_id f) (nbr_colis f) b.
End Facture.

Module InvoiceLine.
Record t := mk {
  id : Z;
  facture_id : Z;
  product_id : Z;
  prix_vnt : Qc;
  qte_vnd : Z
}.

(** [InvoiceLine.total(self)]. *)
Definition total (self : t) : Qc :=
  (prix_vnt self * Py.float_of_int (qte_vnd self))%Qc.
End InvoiceLine.

Module ReturnLine.
Record t := mk {
  id : Z;
  facture_id : Z;
  product_id : Z;
  prix_vnt : Qc;
  qte_retour : Z;
  date : date
}.

(** [ReturnLine.total(self)]. *)
Definition total (self : t) : Qc :=
  (prix_vnt self * Py.float_of_int (qte_retour self))%Qc.
End ReturnLine.

Module Payment.
Record t := mk {
  id : Z;
  numero : string;
  client_id : Z;
  date_pymt : date;
  montant_pymt : Qc;
  banque : option string;
  date_echeance : option date
}.
End Payment.

Module PaymentApplication.
Record t := mk {
  id : Z;
  payment_id : Z;
  facture_id : Z;
  amount_applied : Qc
}.
End PaymentApplication.

(** ** The committed database *)

Record DB := mkDB {
  clients : list Client.t;
  products : list Product.t;
  stock_entries : list StockEntry.t;
  factures : list Facture.t;
  invoice_lines : list InvoiceLine.t;
  return_lines : list ReturnLine.t;
  payments : list Payment.t;
  payment_applications : list PaymentApplication.t
}.

Definition empty_db : DB := mkDB [] [] [] [] [] [] [] [].

(** ** Relationships and model methods *)

(** [facture.lines]. *)
Definition Facture_lines (db : DB) (self : Facture.t) : list InvoiceLine.t :=
  filter (fun l => InvoiceLine.facture_id l =? Facture.id self)
         (invoice_lines db).

(** [facture.returns]. *)
Definition Facture_returns (db : DB) (self : Facture.t) : list ReturnLine.t :=
  filter (fun r => ReturnLine.facture_id r =? Facture.id self)
         (return_lines db).

(** [payment.applications]. *)
Definition Payment_applications (db : DB) (self : Payment.t)
    : list PaymentApplication.t :=
  filter (fun a => PaymentApplication.payment_id a =? Payment.id self)
         (payment_applications db).

(** [Facture.total_ht(self)]. *)
Definition total_ht (db : DB) (self : Facture.t) : Qc :=
  Py.sum_float (map InvoiceLine.total (Facture_lines db self)).

(** [Facture.total_tva(self, tva_rate)]. *)
Definition total_tva (db : DB) (self : Facture.t) (tva_rate : Qc) : Qc :=
  (total_ht db self * tva_rate)%Qc.

(** [Facture.total_ttc(self, tva_rate)]. *)
Definition total_ttc (db : DB) (self : Facture.t) (tva_rate : Qc) : Qc :=
  (total_ht db self + total_tva db self tva_rate)%Qc.

(** ** Helpers: the calculators *)

Record StockSummary := mkStockSummary {
  qte_entree : Z;
  qte_vendue : Z;
  stock_disponible : Z
}.

(** [stock_summary_for_product(prod_id)]. *)
Definition stock_summary_for_product (db : DB) (prod_id : Z) : StockSummary :=
  let qin :=
    Py.or_int
      (Sql.coalesce
         (Sql.sum_int
            (map StockEntry.qte_entree
               (filter (fun e => StockEntry.product_id e =? prod_id)
                       (stock_entries db))))
         0)
      0 in
  let qsold :=
    Py.or_int
      (Sql.coalesce
         (Sql.sum_int
            (map (fun lf => InvoiceLine.qte_vnd (fst lf))
               (filter
                  (fun lf => (InvoiceLine.product_id (fst lf) =? prod_id)
                             && Bool.eqb (Facture.finalized (snd lf)) true)
                  (Sql.join
                     (fun l f => Facture.id f =? InvoiceLine.facture_id l)
                     (invoice_lines db) (factures db)))))
         0)
      0 in
  let qret :=
    Py.or_int
      (Sql.coalesce
         (Sql.sum_int
            (map ReturnLine.qte_retour
               (filter (fun r => ReturnLine.product_id r =? prod_id)
                       (return_lines db))))
         0)
      0 in
  let available := qin - qsold + qret in
  {| qte_entree := qin;
     qte_vendue := Z.max (qsold - qret) 0;
     stock_disponible := available |}.

(** [invoice_totals_by_client(client_id)]. *)
Definition invoice_totals_by_client (db : DB) (client_id : Z) : Qc :=
  let invs :=
    filter (fun i => (Facture.client_id i =? client_id)
                     && Bool.eqb (Facture.finalized i) true)
           (factures db) in
  Py.sum_float (map (fun i => total_ttc db i TVA_RATE) invs).

(** [payments_applied_by_client(client_id)]. *)
Definition payments_applied_by_client (db : DB) (client_id : Z) : Qc :=
  let q :=
    Py.or_float
      (Sql.coalesce
         (Sql.sum_float
            (map (fun af => PaymentApplication.amount_applied (fst af))
               (filter (fun af => Facture.client_id (snd af) =? client_id)
                  (Sql.join
                     (fun a f => Facture.id f =? PaymentApplication.facture_id a)
                     (payment_applications db) (factures db)))))
         (Q2Qc 0))
      (Q2Qc 0) in
  q.

(** [client_balance(client_id)]. *)
Definition client_balance (db : DB) (client_id : Z) : Qc :=
  (invoice_totals_by_client db client_id
   - payments_applied_by_client db client_id)%Qc.

(** ** The ORM session

    [db.session] is a unit of work: [add], [delete] and attribute
    assignments are recorded and written by [commit], which either writes
    all of them or raises and writes none; [rollback] forgets them.  The
    session is discarded at the end of the request. *)

Inductive Exn :=
| NotFound                       (* [get_or_404] on an absent key *)
| BadRequestKeyError             (* [request.form[k]] on an absent key *)
| ValueError                     (* [int], [float] or [strptime] rejects *)
| IntegrityError (msg : string). (* a constraint fails during [commit] *)

Inductive Write :=
| InsertClient (r : Client.t)
| InsertProduct (r : Product.t)
| InsertStockEntry (r : StockEntry.t)
| InsertFacture (r : Facture.t)
| InsertInvoiceLine (r : InvoiceLine.t)
| InsertReturnLine (r : ReturnLine.t)
| InsertPayment (r : Payment.t)
| InsertPaymentApplication (r : PaymentApplication.t)
| UpdateClient (r : Client.t)
| UpdateProduct (r : Product.t)
| UpdateFacture (r : Facture.t)
| DeleteClient (r : Client.t)
| DeleteProduct (r : Product.t)
| DeleteFacture (r : Facture.t).

Record Session := mkSession {
  stored : DB;
  pending : list Write
}.

Definition with_clients (f : list Client.t -> list Client.t) (db : DB) : DB :=
  mkDB (f (clients db)) (products db) (stock_entries db) (factures db)
       (invoice_lines db) (return_lines db) (payments db)
       (payment_applications db).

Definition with_products (f : list Product.t -> list Product.t) (db : DB)
    : DB :=
  mkDB (clients db) (f (products db)) (stock_entries db) (factures db)
       (invoice_lines db) (return_lines db) (payments db)
       (payment_applications db).

Definition with_stock_entries (f : list StockEntry.t -> list StockEntry.t)
    (db : DB) : DB :=
  mkDB (clients db) (products db) (f (stock_entries db)) (factures db)
       (invoice_lines db) (return_lines db) (payments db)
       (payment_applications db).

Definition with_factures (f : list Facture.t -> list Facture.t) (db : DB)
    : DB :=
  mkDB (clients db) (products db) (stock_entries db) (f (factures db))
       (invoice_lines db) (return_lines db) (payments db)
       (payment_applications db).

Definition with_invoice_lines (f : list InvoiceLine.t -> list InvoiceLine.t)
    (db : DB) : DB :=
  mkDB (clients db) (products db) (stock_entries db) (factures db)
       (f (invoice_lines db)) (return_lines db) (payments db)
       (payment_applications db).

Definition with_return_lines (f : list ReturnLine.t -> list ReturnLine.t)
    (db : DB) : DB :=
  mkDB (clients db) (products db) (stock_entries db) (factures db)
       (invoice_lines db) (f (return_lines db)) (payments db)
       (payment_applications db).

Definition with_payments (f : list Payment.t -> list Payment.t) (db : DB)
    : DB :=
  mkDB (clients db) (products db) (stock_entries db) (factures db)
       (invoice_lines db) (return_lines db) (f (payments db))
       (payment_applications db).

Definition with_payment_applications
    (f : list PaymentApplication.t -> list PaymentApplication.t) (db : DB)
    : DB :=
  mkDB (clients db) (products db) (stock_entries db) (factures db)
       (invoice_lines db) (return_lines db) (payments db)
       (f (payment_applications db)).

(** [Model.query.get(k)]: the row with primary key [k], if any. *)
Definition lookup {A : Type} (id : A -> Z) (k : Z) (rows : list A) : option A :=
  find (fun x => id x =? k) rows.

(** Does a UNIQUE column already hold [key]? *)
Definition key_in {A : Type} (col : A -> string) (key : string)
    (rows : list A) : bool :=
  existsb (fun x => String.eqb (col x) key) rows.

(** Does a UNIQUE column hold [key] in a row other than [self_id]? *)
Definition key_taken {A : Type} (id : A -> Z) (col : A -> string)
    (self_id : Z) (key : string) (rows : list A) : bool :=
  existsb (fun x => negb (id x =? self_id) && String.eqb (col x) key) rows.

(** Does the row [r] change the UNIQUE column of the row it replaces?  An
    UPDATE writes the columns whose value has changed. *)
Definition key_changed {A : Type} (id : A -> Z) (col : A -> string) (r : A)
    (rows : list A) : bool :=
  match lookup id (id r) rows with
  | Some old => negb (String.eqb (col old) (col r))
  | None => false
  end.

(** Replace the row that has the primary key of [r]. *)
Definition replace_row {A : Type} (id : A -> Z) (r : A) (rows : list A)
    : list A :=
  map (fun x => if id x =? id r then r else x) rows.

(** Remove the row that has the primary key [k]. *)
Definition remove_row {A : Type} (id : A -> Z) (k : Z) (rows : list A)
    : list A :=
  filter (fun x => negb (id x =? k)) rows.

(** One statement of the flush.  A relationship without a delete cascade
    concerns no row when the handlers reach [delete]: they test for such
    rows first. *)
Definition apply_write (w : Write) (db : DB) : Exn + DB :=
  match w with
  | InsertClient r => inr (with_clients (fun t => t ++ [r]) db)
  | InsertProduct r =>
      if key_in Product.ref_produit (Product.ref_produit r) (products db)
      then inl (IntegrityError "UNIQUE constraint failed: products.ref_produit")
      else inr (with_products (fun t => t ++ [r]) db)
  | InsertStockEntry r => inr (with_stock_entries (fun t => t ++ [r]) db)
  | InsertFacture r =>
      if key_in Facture.numero (Facture.numero r) (factures db)
      then inl (IntegrityError "UNIQUE constraint failed: factures.numero")
      else inr (with_factures (fun t => t ++ [r]) db)
  | InsertInvoiceLine r => inr (with_invoice_lines (fun t => t ++ [r]) db)
  | InsertReturnLine r => inr (with_return_lines (fun t => t ++ [r]) db)
  | InsertPayment r =>
      if key_in Payment.numero (Payment.numero r) (payments db)
      then inl (IntegrityError "UNIQUE constraint failed: payments.numero")
      else inr (with_payments (fun t => t ++ [r]) db)
  | InsertPaymentApplication r =>
      inr (with_payment_applications (fun t => t ++ [r]) db)
  | UpdateClient r => inr (with_clients (replace_row Client.id r) db)
  | UpdateProduct r =>
      if key_changed Product.id Product.ref_produit r (products db)
         && key_taken Product.id Product.ref_produit (Product.id r)
              (Product.ref_produit r) (products db)
      then inl (IntegrityError "UNIQUE constraint failed: products.ref_produit")
      else inr (with_products (replace_row Product.id r) db)
  | UpdateFacture r =>
      if key_changed Facture.id Facture.numero r (factures db)
         && key_taken Facture.id Facture.numero (Facture.id r)
              (Facture.numero r) (factures db)
      then inl (IntegrityError "UNIQUE constraint failed: factures.numero")
      else inr (with_factures (replace_row Facture.id r) db)
  | DeleteClient r =>
      inr (with_clients (remove_row Client.id (Client.id r)) db)
  | DeleteProduct r =>
      inr (with_products (remove_row Product.id (Product.id r)) db)
  | DeleteFacture r =>
      (* cascade="all, delete-orphan" on [lines] and [returns] *)
      inr (with_factures (remove_row Facture.id (Facture.id r))
             (with_invoice_lines
                (filter (fun l =>
                           negb (InvoiceLine.facture_id l =? Facture.id r)))
                (with_return_lines
                   (filter (fun l =>
                              negb (ReturnLine.facture_id l =? Facture.id r)))
                   db)))
  end.

Fixpoint flush (ws : list Write) (db : DB) : Exn + DB :=
  match ws with
  | [] => inr db
  | w :: ws' =>
      match apply_write w db with
      | inl e => inl e
      | inr db' => flush ws' db'
      end
  end.

(** ** The handler monad: session state and exceptions *)

Definition M (A : Type) : Type := Session -> (Exn + A) * Session.

Definition ret {A : Type} (a : A) : M A := fun s => (inr a, s).

Definition bind {A B : Type} (c : M A) (k : A -> M B) : M B :=
  fun s =>
    match c s with
    | (inr a, s') => k a s'
    | (inl e, s') => (inl e, s')
    end.

Definition raise {A : Type} (e : Exn) : M A := fun s => (inl e, s).

(** [try: c  except Exception as e: ...]: the outcome of [c] as a value. *)
Definition try_except {A : Type} (c : M A) : M (Exn + A) :=
  fun s => let '(r, s') := c s in (inr r, s').

Declare Scope monad_scope.
Delimit Scope monad_scope with monad.
Notation "x <- c ;; k" := (bind c (fun x => k))
  (at level 61, c at next level, right associativity) : monad_scope.
Notation "c ;;; k" := (bind c (fun _ => k))
  (at level 61, right associativity) : monad_scope.
Local Open Scope monad_scope.

(** A query against the database (nothing is pending when the handlers
    query). *)
Definition query {A : Type} (q : DB -> A) : M A :=
  fun s => (inr (q (stored s)), s).

Definition record_write (w : Write) : M unit :=
  fun s => (inr tt, mkSession (stored s) (pending s ++ [w])).

(** [db.session.commit()]. *)
Definition commit : M unit :=
  fun s =>
    match flush (pending s) (stored s) with
    | inr db' => (inr tt, mkSession db' [])
    | inl e => (inl e, s)
    end.

(** [db.session.rollback()]. *)
Definition rollback : M unit :=
  fun s => (inr tt, mkSession (stored s) []).

(** [db.session.add(obj)] for a new object: the object is given as a
    function of the primary key it receives. *)
Definition add_new {A : Type} (table : DB -> list A) (id : A -> Z)
    (ins : A -> Write) (new : Z -> A) : M A :=
  ids <- query (fun db => map id (table db)) ;;
  let r := new (Sql.next_id ids) in
  record_write (ins r) ;;;
  ret r.

(** [Model.query.get_or_404(k)]. *)
Definition get_or_404 {A : Type} (table : DB -> list A) (id : A -> Z) (k : Z)
    : M A :=
  r <- query (fun db => lookup id k (table db)) ;;
  match r with
  | Some x => ret x
  | None => raise NotFound
  end.

(** ** Requests and responses *)

(** A form field that the handler converts with [int], [float] or
    [strptime(_, "%Y-%m-%d").date()]. *)
Inductive field (A : Type) :=
| Missing        (* the key is not in the form *)
| Blank          (* the value is the empty string *)
| Malformed      (* a non-empty value that the conversion rejects *)
| Value (a : A). (* a non-empty value that converts to [a] *)

Arguments Missing {A}.
Arguments Blank {A}.
Arguments Malformed {A}.
Arguments Value {A} a.

(** [request.form[k]] for a text field. *)
Definition form_item (v : option string) : M string :=
  match v with
  | Some s => ret s
  | None => raise BadRequestKeyError
  end.

(** [conv(request.form[k])]. *)
Definition convert {A : Type} (f : field A) : M A :=
  match f with
  | Missing => raise BadRequestKeyError
  | Blank => raise ValueError
  | Malformed => raise ValueError
  | Value a => ret a
  end.

(** [conv(request.form.get(k, d) or z)]: [d] when the key is missing, [z]
    when the value is empty. *)
Definition convert_get_or {A : Type} (f : field A) (d z : A) : M A :=
  match f with
  | Missing => ret d
  | Blank => ret z
  | Malformed => raise ValueError
  | Value a => ret a
  end.

(** The truth value of [request.form.get(k)]. *)
Definition given {A : Type} (f : field A) : bool :=
  match f with
  | Missing => false
  | Blank => false
  | Malformed => true
  | Value _ => true
  end.

Module ClientForm.
Record t := mk {
  nom_client : option string;
  tel : option string;
  adresse : option string;
  ville : option string
}.
End ClientForm.

Module ProductForm.
Record t := mk {
  ref_produit : option string;
  nom_produit : option string;
  prix_achat : field Qc;
  prix_std : field Qc;
  qte_entree : field Z;
  date_entry : field date
}.
End ProductForm.

Module StockEntryForm.
Record t := mk {
  product_id : field Z;
  date : field date;
  qte_entree : field Z
}.
End StockEntryForm.

Module InvoiceForm.
Record t := mk {
  numero : option string;
  date_vente : field date;
  client_id : field Z;
  nbr_colis : field Z
}.
End InvoiceForm.

Module LineForm.
Record t := mk {
  product_id : field Z;
  prix_vnt : field Qc;
  qte_vnd : field Z
}.
End LineForm.

Module ReturnForm.
Record t := mk {
  product_id : field Z;
  prix_vnt : field Qc;
  qte_retour : field Z;
  date : field date
}.
End ReturnForm.

Module PaymentForm.
Record t := mk {
  numero : option string;
  client_id : field Z;
  date_pymt : field date;
  montant_pymt : field Qc;
  banque : option string;
  date_echeance : field date
}.
End PaymentForm.

Module ApplicationForm.
Record t := mk {
  invoice_id : field Z;
  amount_applied : field Qc
}.
End ApplicationForm.

Inductive Endpoint :=
| url_clients
| url_products
| url_invoice_new
| url_invoice_view (invoice_id : Z)
| url_payment_new
| url_payment_view (payment_id : Z).

Record Flash := mkFlash {
  message : string;
  category : string
}.

(** One row of [invoice_rows] in [invoice_new]. *)
Record InvoiceRow := mkInvoiceRow {
  row_i : Facture.t;
  row_total : Qc;
  row_paid : Qc;
  row_remaining : Qc
}.

(** What a handler returns.  For a rendered page or document the response
    carries the derived figures of the template context. *)
Inductive Response :=
| Redirect (flashed : option Flash) (location : Endpoint)
| InvoiceNewPage (invoice_rows : list InvoiceRow)
| PaymentViewPage (pay : Payment.t) (remaining : Qc)
| PaymentReceiptPdf (pay : Payment.t) (total_applied remaining : Qc)
| HttpError (code : Z).

Definition exn_message (e : Exn) : string :=
  match e with
  | NotFound => "404 Not Found"
  | BadRequestKeyError => "400 Bad Request"
  | ValueError => "ValueError"
  | IntegrityError msg => msg
  end.

(** An exception that leaves the handler: [abort] codes as they are, any
    other exception as an internal server error. *)
Definition error_response (e : Exn) : Response :=
  match e with
  | NotFound => HttpError 404
  | BadRequestKeyError => HttpError 400
  | ValueError => HttpError 500
  | IntegrityError _ => HttpError 500
  end.

(** Serve one request on the committed database. *)
Definition run (h : M Response) (db : DB) : Response * DB :=
  let '(r, s) := h (mkSession db []) in
  (match r with
   | inr resp => resp
   | inl e => error_response e
   end,
   stored s).

(** ** Clients *)

Definition flash_redirect (msg cat : string) (to : Endpoint) : Response :=
  Redirect (Some (mkFlash msg cat)) to.

(** [clients()], POST. *)
Definition clients_post (form : ClientForm.t) : M Response :=
  nom_client <- form_item (ClientForm.nom_client form) ;;
  _ <- add_new clients Client.id InsertClient
         (fun id => Client.mk id nom_client (ClientForm.tel form)
                      (ClientForm.adresse form) (ClientForm.ville form)) ;;
  commit ;;;
  ret (flash_redirect "Client added." "success" url_clients).

(** [request.form.get(k, previous)] for a text field. *)
Definition form_get (v : option string) (previous : string) : string :=
  match v with
  | Some s => s
  | None => previous
  end.

Definition form_get_opt (v previous : option string) : option string :=
  match v with
  | Some s => Some s
  | None => previous
  end.

(** [client_update(client_id)]. *)
Definition client_update (client_id : Z) (form : ClientForm.t) : M Response :=
  c <- get_or_404 clients Client.id client_id ;;
  let c' :=
    Client.mk (Client.id c)
      (form_get (ClientForm.nom_client form) (Client.nom_client c))
      (form_get_opt (ClientForm.tel form) (Client.tel c))
      (form_get_opt (ClientForm.adresse form) (Client.adresse c))
      (form_get_opt (ClientForm.ville form) (Client.ville c)) in
  record_write (UpdateClient c') ;;;
  commit ;;;
  ret (flash_redirect "Client mis à jour." "success" url_clients).

(** [client_delete(client_id)]. *)
Definition client_delete (client_id : Z) : M Response :=
  c <- get_or_404 clients Client.id client_id ;;
  factures_count <-
    query (fun db =>
             Py.or_int
               (Sql.count
                  (filter (fun f => Facture.client_id f =? Client.id c)
                          (factures db)))
               0) ;;
  payments_count <-
    query (fun db =>
             Py.or_int
               (Sql.count
                  (filter (fun p => Payment.client_id p =? Client.id c)
                          (payments db)))
               0) ;;
  if Py.truthy factures_count || Py.truthy payments_count then
    ret (flash_redirect
           "Impossible de supprimer: client lié à des factures ou paiements."
           "warning" url_clients)
  else
    record_write (DeleteClient c) ;;;
    commit ;;;
    ret (flash_redirect "Client supprimé." "success" url_clients).

(** ** Products and stock *)

(** [products()], POST; [today] is [date.today()]. *)
Definition products_post (today : date) (form : ProductForm.t) : M Response :=
  ref0 <- form_item (ProductForm.ref_produit form) ;;
  let ref := Py.strip ref0 in
  nom0 <- form_item (ProductForm.nom_produit form) ;;
  prix_achat <-
    convert_get_or (ProductForm.prix_achat form) (Q2Qc 0) (Q2Qc 0) ;;
  prix_std <- convert_get_or (ProductForm.prix_std form) (Q2Qc 0) (Q2Qc 0) ;;
  p <- add_new products Product.id InsertProduct
         (fun id => Product.mk id ref (Py.strip nom0) prix_achat prix_std) ;;
  r <- try_except commit ;;
  match r with
  | inl e =>
      rollback ;;;
      ret (flash_redirect ("Error: " ++ exn_message e) "danger" url_products)
  | inr _ =>
      qte_entree <- convert_get_or (ProductForm.qte_entree form) 0 0 ;;
      let date_entry := ProductForm.date_entry form in
      (if 0 <? qte_entree then
         d <- (if given date_entry then convert date_entry else ret today) ;;
         _ <- add_new stock_entries StockEntry.id InsertStockEntry
                (fun id => StockEntry.mk id (Product.id p) d qte_entree) ;;
         commit
       else ret tt) ;;;
      ret (flash_redirect "Product added." "success" url_products)
  end.

(** [product_update(product_id)]. *)
Definition product_update (product_id : Z) (form : ProductForm.t)
    : M Response :=
  p <- get_or_404 products Product.id product_id ;;
  let new_ref :=
    Py.strip (form_get (ProductForm.ref_produit form) (Product.ref_produit p)) in
  let nom := form_get (ProductForm.nom_produit form) (Product.nom_produit p) in
  prix_achat <-
    convert_get_or (ProductForm.prix_achat form)
      (Py.or_float (Product.prix_achat p) (Q2Qc 0)) (Q2Qc 0) ;;
  prix_std <-
    convert_get_or (ProductForm.prix_std form)
      (Py.or_float (Product.prix_std p) (Q2Qc 0)) (Q2Qc 0) ;;
  record_write
    (UpdateProduct (Product.mk (Product.id p) new_ref nom prix_achat prix_std)) ;;;
  r <- try_except commit ;;
  match r with
  | inr _ => ret (flash_redirect "Produit mis à jour." "success" url_products)
  | inl e =>
      rollback ;;;
      ret (flash_redirect
             ("Erreur mise à jour (ref unique ?) : " ++ exn_message e)
             "danger" url_products)
  end.

(** [product_delete(product_id)]. *)
Definition product_delete (product_id : Z) : M Response :=
  p <- get_or_404 products Product.id product_id ;;
  used_lines <-
    query (fun db =>
             Py.or_int
               (Sql.count
                  (filter (fun l => InvoiceLine.product_id l =? Product.id p)
                          (invoice_lines db)))
               0) ;;
  has_entries <-
    query (fun db =>
             Py.or_int
               (Sql.count
                  (filter (fun e => StockEntry.product_id e =? Product.id p)
                          (stock_entries db)))
               0) ;;
  if Py.truthy used_lines || Py.truthy has_entries then
    ret (flash_redirect
           "Impossible de supprimer: produit utilisé (lignes facture ou entrées stock)."
           "warning" url_products)
  else
    record_write (DeleteProduct p) ;;;
    commit ;;;
    ret (flash_redirect "Produit supprimé." "success" url_products).

(** [stock_entry()]. *)
Definition stock_entry (form : StockEntryForm.t) : M Response :=
  product_id <- convert (StockEntryForm.product_id form) ;;
  d <- convert (StockEntryForm.date form) ;;
  qte_entree <- convert (StockEntryForm.qte_entree form) ;;
  _ <- add_new stock_entries StockEntry.id InsertStockEntry
         (fun id => StockEntry.mk id product_id d qte_entree) ;;
  commit ;;;
  ret (flash_redirect "Stock entry recorded." "success" url_products).

(** ** Invoices *)

(** [invoice_new()], POST. *)
Definition invoice_new_post (form : InvoiceForm.t) : M Response :=
  numero0 <- form_item (InvoiceForm.numero form) ;;
  date_vente <- convert (InvoiceForm.date_vente form) ;;
  client_id <- convert (InvoiceForm.client_id form) ;;
  nbr_colis <- convert_get_or (InvoiceForm.nbr_colis form) 0 0 ;;
  inv <- add_new factures Facture.id InsertFacture
           (fun id =>
              Facture.mk id (Py.strip numero0) date_vente client_id nbr_colis
                false) ;;
  r <- try_except commit ;;
  match r with
  | inl e =>
      rollback ;;;
      ret (flash_redirect ("Error: " ++ exn_message e) "danger"
             url_invoice_new)
  | inr _ => ret (Redirect None (url_invoice_view (Facture.id inv)))
  end.

(** [ORDER BY date_vente DESC, id DESC]. *)
Definition before (a b : Facture.t) : bool :=
  (Facture.date_vente b <? Facture.date_vente a)
  || (Facture.date_vente a =? Facture.date_vente b)
     && (Facture.id b <=? Facture.id a).

Fixpoint insert_sorted (x : Facture.t) (l : list Facture.t)
    : list Facture.t :=
  match l with
  | [] => [x]
  | y :: l' => if before x y then x :: l else y :: insert_sorted x l'
  end.

Definition order_by_date_desc (l : list Facture.t) : list Facture.t :=
  fold_right insert_sorted [] l.

(** The sum of the amounts applied on one invoice, as [invoice_new] queries
    it. *)
Definition paid_on_invoice (db : DB) (i : Facture.t) : Qc :=
  Py.or_float
    (Sql.coalesce
       (Sql.sum_float
          (map PaymentApplication.amount_applied
             (filter (fun a => PaymentApplication.facture_id a =? Facture.id i)
                     (payment_applications db))))
       (Q2Qc 0))
    (Q2Qc 0).

(** [invoice_new()], GET: the rows of the invoice list. *)
Definition invoice_new_get : M Response :=
  invs <- query (fun db => order_by_date_desc (factures db)) ;;
  invoice_rows <-
    query (fun db =>
             map (fun i =>
                    let total := total_ttc db i TVA_RATE in
                    let paid := paid_on_invoice db i in
                    let remaining := (total - paid)%Qc in
                    mkInvoiceRow i total paid remaining)
                 invs) ;;
  ret (InvoiceNewPage invoice_rows).

(** [invoice_update(invoice_id)]. *)
Definition invoice_update (invoice_id : Z) (form : InvoiceForm.t)
    : M Response :=
  inv <- get_or_404 factures Facture.id invoice_id ;;
  let numero :=
    Py.strip (form_get (InvoiceForm.numero form) (Facture.numero inv)) in
  date_vente <-
    (if given (InvoiceForm.date_vente form)
     then convert (InvoiceForm.date_vente form)
     else ret (Facture.date_vente inv)) ;;
  client_id <-
    (if given (InvoiceForm.client_id form)
     then convert (InvoiceForm.client_id form)
     else ret (Facture.client_id inv)) ;;
  nbr_colis <-
    convert_get_or (InvoiceForm.nbr_colis form) (Facture.nbr_colis inv) 0 ;;
  record_write
    (UpdateFacture
       (Facture.mk (Facture.id inv) numero date_vente client_id nbr_colis
          (Facture.finalized inv))) ;;;
  r <- try_except commit ;;
  match r with
  | inr _ =>
      ret (flash_redirect "Facture mise à jour." "success" url_invoice_new)
  | inl e =>
      rollback ;;;
      ret (flash_redirect
             ("Erreur de mise à jour (numéro unique ?) : " ++ exn_message e)
             "danger" url_invoice_new)
  end.

(** [invoice_delete(invoice_id)]. *)
Definition invoice_delete (invoice_id : Z) : M Response :=
  inv <- get_or_404 factures Facture.id invoice_id ;;
  apps <-
    query (fun db =>
             Py.or_int
               (Sql.count
                  (filter
                     (fun a =>
                        PaymentApplication.facture_id a =? Facture.id inv)
                     (payment_applications db)))
               0) ;;
  if Py.truthy apps then
    ret (flash_redirect
           "Impossible de supprimer: des paiements sont appliqués sur cette facture."
           "warning" url_invoice_new)
  else
    record_write (DeleteFacture inv) ;;;
    commit ;;;
    ret (flash_redirect "Facture supprimée." "success" url_invoice_new).

(** [invoice_toggle_finalize(invoice_id)]. *)
Definition invoice_toggle_finalize (invoice_id : Z) : M Response :=
  inv <- get_or_404 factures Facture.id invoice_id ;;
  record_write
    (UpdateFacture (Facture.set_finalized (negb (Facture.finalized inv)) inv)) ;;;
  commit ;;;
  ret (flash_redirect "Statut de finalisation mis à jour." "success"
         url_invoice_new).

(** [invoice_add_line(invoice_id)]. *)
Definition invoice_add_line (invoice_id : Z) (form : LineForm.t)
    : M Response :=
  inv <- get_or_404 factures Facture.id invoice_id ;;
  product_id <- convert (LineForm.product_id form) ;;
  prix_vnt <- convert (LineForm.prix_vnt form) ;;
  qte_vnd <- convert (LineForm.qte_vnd form) ;;
  _ <- add_new invoice_lines InvoiceLine.id InsertInvoiceLine
         (fun id =>
            InvoiceLine.mk id (Facture.id inv) product_id prix_vnt qte_vnd) ;;
  commit ;;;
  ret (Redirect None (url_invoice_view (Facture.id inv))).

(** [invoice_add_return(invoice_id)]. *)
Definition invoice_add_return (invoice_id : Z) (form : ReturnForm.t)
    : M Response :=
  inv <- get_or_404 factures Facture.id invoice_id ;;
  product_id <- convert (ReturnForm.product_id form) ;;
  prix_vnt <- convert (ReturnForm.prix_vnt form) ;;
  qte_retour <- convert (ReturnForm.qte_retour form) ;;
  d <- convert (ReturnForm.date form) ;;
  _ <- add_new return_lines ReturnLine.id InsertReturnLine
         (fun id =>
            ReturnLine.mk id (Facture.id inv) product_id prix_vnt qte_retour
              d) ;;
  commit ;;;
  ret (Redirect None (url_invoice_view (Facture.id inv))).

(** [invoice_finalize(invoice_id)]. *)
Definition invoice_finalize (invoice_id : Z) : M Response :=
  inv <- get_or_404 factures Facture.id invoice_id ;;
  record_write (UpdateFacture (Facture.set_finalized true inv)) ;;;
  commit ;;;
  ret (flash_redirect "Invoice finalized." "success"
         (url_invoice_view (Facture.id inv))).

(** ** Payments *)

(** [payment_new()], POST. *)
Definition payment_new_post (form : PaymentForm.t) : M Response :=
  numero <- form_item (PaymentForm.numero form) ;;
  client_id <- convert (PaymentForm.client_id form) ;;
  date_pymt <- convert (PaymentForm.date_pymt form) ;;
  montant_pymt <- convert (PaymentForm.montant_pymt form) ;;
  date_echeance <-
    (if given (PaymentForm.date_echeance form)
     then d <- convert (PaymentForm.date_echeance form) ;; ret (Some d)
     else ret None) ;;
  pay <- add_new payments Payment.id InsertPayment
           (fun id =>
              Payment.mk id numero client_id date_pymt montant_pymt
                (PaymentForm.banque form) date_echeance) ;;
  r <- try_except commit ;;
  match r with
  | inl e =>
      rollback ;;;
      ret (flash_redirect ("Error: " ++ exn_message e) "danger"
             url_payment_new)
  | inr _ => ret (Redirect None (url_payment_view (Payment.id pay)))
  end.

(** [payment_view(payment_id)], POST. *)
Definition payment_view_post (payment_id : Z) (form : ApplicationForm.t)
    : M Response :=
  pay <- get_or_404 payments Payment.id payment_id ;;
  facture_id <- convert (ApplicationForm.invoice_id form) ;;
  amount_applied <- convert (ApplicationForm.amount_applied form) ;;
  _ <- add_new payment_applications PaymentApplication.id
         InsertPaymentApplication
         (fun id =>
            PaymentApplication.mk id (Payment.id pay) facture_id
              amount_applied) ;;
  commit ;;;
  ret (flash_redirect "Payment applied to invoice." "success"
         (url_payment_view (Payment.id pay))).

(** The remaining amount of a payment, as [payment_view] computes it. *)
Definition payment_remaining (db : DB) (pay : Payment.t) : Qc :=
  let applied :=
    Py.sum_float
      (map PaymentApplication.amount_applied (Payment_applications db pay)) in
  (Payment.montant_pymt pay - applied)%Qc.

(** [payment_view(payment_id)], GET. *)
Definition payment_view_get (payment_id : Z) : M Response :=
  pay <- get_or_404 payments Payment.id payment_id ;;
  remaining <- query (fun db => payment_remaining db pay) ;;
  ret (PaymentViewPage pay remaining).

(** The threshold [1e-6] of [payment_receipt]. *)
Definition EPSILON : Qc := Q2Qc (1 # 1000000).

(** [payment_receipt(payment_id)]. *)
Definition payment_receipt (payment_id : Z) : M Response :=
  pay <- get_or_404 payments Payment.id payment_id ;;
  total_applied <-
    query (fun db =>
             Py.sum_float
               (map PaymentApplication.amount_applied
                    (Payment_applications db pay))) ;;
  remaining_client <- query (fun db => client_balance db (Payment.client_id pay)) ;;
  let remaining_client :=
    if Py.ltb (Qcabs remaining_client) EPSILON then Q2Qc 0
    else remaining_client in
  ret (PaymentReceiptPdf pay total_applied remaining_client).

(** ** The requests that the application serves *)

Inductive Action :=
| ClientsPost (form : ClientForm.t)
| ClientUpdate (client_id : Z) (form : ClientForm.t)
| ClientDelete (client_id : Z)
| ProductsPost (today : date) (form : ProductForm.t)
| ProductUpdate (product_id : Z) (form : ProductForm.t)
| ProductDelete (product_id : Z)
| StockEntryPost (form : StockEntryForm.t)
| InvoiceNewPost (form : InvoiceForm.t)
| InvoiceNewGet
| InvoiceUpdate (invoice_id : Z) (form : InvoiceForm.t)
| InvoiceDelete (invoice_id : Z)
| InvoiceToggleFinalize (invoice_id : Z)
| InvoiceAddLine (invoice_id : Z) (form : LineForm.t)
| InvoiceAddReturn (invoice_id : Z) (form : ReturnForm.t)
| InvoiceFinalize (invoice_id : Z)
| PaymentNewPost (form : PaymentForm.t)
| PaymentViewPost (payment_id : Z) (form : ApplicationForm.t)
| PaymentViewGet (payment_id : Z)
| PaymentReceipt (payment_id : Z).

Definition handler (a : Action) : M Response :=
  match a with
  | ClientsPost form => clients_post form
  | ClientUpdate client_id form => client_update client_id form
  | ClientDelete client_id => client_delete client_id
  | ProductsPost today form => products_post today form
  | ProductUpdate product_id form => product_update product_id form
  | ProductDelete product_id => product_delete product_id
  | StockEntryPost form => stock_entry form
  | InvoiceNewPost form => invoice_new_post form
  | InvoiceNewGet => invoice_new_get
  | InvoiceUpdate invoice_id form => invoice_update invoice_id form
  | InvoiceDelete invoice_id => invoice_delete invoice_id
  | InvoiceToggleFinalize invoice_id => invoice_toggle_finalize invoice_id
  | InvoiceAddLine invoice_id form => invoice_add_line invoice_id form
  | InvoiceAddReturn invoice_id form => invoice_add_return invoice_id form
  | InvoiceFinalize invoice_id => invoice_finalize invoice_id
  | PaymentNewPost form => payment_new_post form
  | PaymentViewPost payment_id form => payment_view_post payment_id form
  | PaymentViewGet payment_id => payment_view_get payment_id
  | PaymentReceipt payment_id => payment_receipt payment_id
  end.

Definition step (a : Action) (db : DB) : Response * DB := run (handler a) db.

(** * Vocabulary of the statements *)

(** The mathematical sums that the statements below use. *)
Definition Qsum (l : list Qc) : Qc := fold_right Qcplus (Q2Qc 0) l.
Definition Zsum (l : list Z) : Z := fold_right Z.add 0 l.

(** The invoice that a foreign key designates, if it exists. *)
Definition invoice_of (db : DB) (facture_id : Z) : option Facture.t :=
  lookup Facture.id facture_id (factures db).

Definition application_of_client (db : DB) (client_id : Z)
    (a : PaymentApplication.t) : bool :=
  match invoice_of db (PaymentApplication.facture_id a) with
  | Some f => Facture.client_id f =? client_id
  | None => false
  end.

Definition line_on_finalized (db : DB) (l : InvoiceLine.t) : bool :=
  match invoice_of db (InvoiceLine.facture_id l) with
  | Some f => Facture.finalized f
  | None => false
  end.

(** The three ledgers of a product. *)
Definition received_of (db : DB) (prod_id : Z) : Z :=
  Zsum (map StockEntry.qte_entree
          (filter (fun e => StockEntry.product_id e =? prod_id)
                  (stock_entries db))).

Definition sold_of (db : DB) (prod_id : Z) : Z :=
  Zsum (map InvoiceLine.qte_vnd
          (filter (fun l => (InvoiceLine.product_id l =? prod_id)
                            && line_on_finalized db l)
                  (invoice_lines db))).

Definition returned_of (db : DB) (prod_id : Z) : Z :=
  Zsum (map ReturnLine.qte_retour
          (filter (fun r => ReturnLine.product_id r =? prod_id)
                  (return_lines db))).



(** The category of the message a response flashes, if it flashes one. *)
Definition flash_category (r : Response) : option string :=
  match r with
  | Redirect (Some f) _ => Some (category f)
  | _ => None
  end.

(** The two requests that set the [finalized] flag. *)
Definition changes_flag (a : Action) : bool :=
  match a with
  | InvoiceToggleFinalize _ => true
  | InvoiceFinalize _ => true
  | _ => false
  end.

(** The three requests that create a row with a UNIQUE column. *)
Definition creates_unique (a : Action) : bool :=
  match a with
  | ProductsPost _ _ => true
  | InvoiceNewPost _ => true
  | PaymentNewPost _ => true
  | _ => false
  end.

(** The value [conv(request.form.get(k, 0) or 0)] yields, if it yields one. *)
Definition value_or {A : Type} (f : field A) (zero : A) : option A :=
  match f with
  | Missing => Some zero
  | Blank => Some zero
  | Malformed => None
  | Value a => Some a
  end.

(** The value [conv(request.form[k])] yields, if it yields one. *)
Definition value_of {A : Type} (f : field A) : option A :=
  match f with
  | Value a => Some a
  | _ => None
  end.

(** A row of [rows] carries the foreign key [k]. *)
Definition referenced {A : Type} (fk : A -> Z) (k : Z) (rows : list A) : Prop :=
  exists x, In x rows /\ fk x = k.

(** A row of [rows] holds [key] in the column [col]. *)
Definition holds_key {A : Type} (col : A -> string) (key : string)
    (rows : list A) : Prop :=
  exists x, In x rows /\ col x = key.

(** The date of the stock entry that [products] records: the date of the
    form, or [today] when the form gives none. *)
Definition entry_date (today : date) (f : field date) : option date :=
  match f with
  | Missing => Some today
  | Blank => Some today
  | Malformed => None
  | Value d => Some d
  end.

(** The primary key and the UNIQUE column of [factures] hold. *)
Definition facture_keys_ok (db : DB) : Prop :=
  NoDup (map Facture.id (factures db))
  /\ NoDup (map Facture.numero (factures db)).

(** The databases that the application reaches from the empty one. *)
Inductive reachable : DB -> Prop :=
| reachable_empty : reachable empty_db
| reachable_step (a : Action) (db : DB) :
    reachable db -> reachable (snd (step a db)).

(** ** A small ledger on which the statements are exercised *)

Definition F1 : Facture.t := Facture.mk 1 "F-001" 100 1 0 true.
Definition F2 : Facture.t := Facture.mk 2 "F-002" 101 1 0 false.
Definition F3 : Facture.t := Facture.mk 3 "F-003" 102 1 0 true.
Definition F4 : Facture.t := Facture.mk 4 "F-004" 103 2 0 false.

Definition P1 : Payment.t :=
  Payment.mk 1 "P-001" 1 104 (Py.float_of_int 200) None None.
Definition P2 : Payment.t :=
  Payment.mk 2 "P-002" 2 105 (Py.float_of_int 10) (Some "BMCE"%string)
    (Some 135).

(** Client 3 has no invoice and no payment.  Product 3 has no row at all;
    product 4 is on no invoice line and has no stock entry, but one return
    line names it.  Invoice 2 is not finalized and carries an application;
    invoice 3 carries none; invoice 4 has no line.  Product 2 is oversold and
    payment 1 is over-applied. *)
Definition ledger : DB :=
  {| clients :=
       [ Client.mk 1 "Atlas" (Some "0522000000"%string) None
           (Some "Casablanca"%string);
         Client.mk 2 "Rif" None None None;
         Client.mk 3 "Souss" None None None ];
     products :=
       [ Product.mk 1 "REF-1" "Savon" (Py.float_of_int 4) (Py.float_of_int 10);
         Product.mk 2 "REF-2" "Huile" (Py.float_of_int 3) (Py.float_of_int 5);
         Product.mk 3 "REF-3" "Sel" (Py.float_of_int 1) (Py.float_of_int 2);
         Product.mk 4 "REF-4" "Cumin" (Py.float_of_int 1) (Py.float_of_int 2) ];
     stock_entries := [ StockEntry.mk 1 1 90 100; StockEntry.mk 2 2 90 5 ];
     factures := [ F1; F2; F3; F4 ];
     invoice_lines :=
       [ InvoiceLine.mk 1 1 1 (Py.float_of_int 10) 2;
         InvoiceLine.mk 2 1 2 (Py.float_of_int 5) 3;
         InvoiceLine.mk 3 2 1 (Py.float_of_int 10) 30;
         InvoiceLine.mk 4 3 2 (Py.float_of_int 5) 10 ];
     return_lines :=
       [ ReturnLine.mk 1 1 1 (Py.float_of_int 10) 1 103;
         ReturnLine.mk 2 3 4 (Py.float_of_int 2) 1 104 ];
     payments := [ P1; P2 ];
     payment_applications :=
       [ PaymentApplication.mk 1 1 1 (Py.float_of_int 150);
         PaymentApplication.mk 2 1 2 (Py.float_of_int 60) ] |}.

(** A form that repeats the reference code of a stored product. *)
Definition duplicate_product_form : ProductForm.t :=
  ProductForm.mk (Some " REF-1 "%string) (Some "Savon noir"%string)
    (Value (Py.float_of_int 4)) Blank (Value 12) Missing.

(** A form for a new product with a first receipt of seven units. *)
Definition new_product_form : ProductForm.t :=
  ProductForm.mk (Some "REF-9 "%string) (Some "Argan"%string)
    (Value (Py.float_of_int 40)) (Value (Py.float_of_int 90)) (Value 7)
    Missing.

(** Forms that repeat the number of a stored invoice and payment. *)
Definition duplicate_invoice_form : InvoiceForm.t :=
  InvoiceForm.mk (Some "F-002"%string) (Value 110) (Value 3) Missing.

Definition duplicate_payment_form : PaymentForm.t :=
  PaymentForm.mk (Some "P-001"%string) (Value 3) (Value 110)
    (Value (Py.float_of_int 25)) None Blank.

(** ** Vocabulary of the further properties *)

(** Does the row that a request names by primary key exist?  [None] for a
    request that names none. *)
Definition names_row (a : Action) (db : DB) : option bool :=
  let found {A : Type} (r : option A) :=
    match r with Some _ => true | None => false end in
  match a with
  | ClientUpdate k _ | ClientDelete k =>
      Some (found (lookup Client.id k (clients db)))
  | ProductUpdate k _ | ProductDelete k =>
      Some (found (lookup Product.id k (products db)))
  | InvoiceUpdate k _ | InvoiceDelete k | InvoiceToggleFinalize k
  | InvoiceAddLine k _ | InvoiceAddReturn k _ | InvoiceFinalize k =>
      Some (found (lookup Facture.id k (factures db)))
  | PaymentViewPost k _ | PaymentViewGet k | PaymentReceipt k =>
      Some (found (lookup Payment.id k (payments db)))
  | _ => None
  end.

(** A response that reports a failure: an HTTP error, or a redirect that
    flashes a warning or a danger message. *)
Definition failed (r : Response) : bool :=
  match r with
  | HttpError _ => true
  | Redirect (Some f) _ =>
      String.eqb (category f) "warning" || String.eqb (category f) "danger"
  | _ => false
  end.

Definition is_products_post (a : Action) : bool :=
  match a with
  | ProductsPost _ _ => true
  | _ => false
  end.

(** The value a numeric field of an update form leaves in a column: the
    previous one when the key is missing, zero when the value is empty. *)
Definition updated_value {A : Type} (f : field A) (previous zero : A) : A :=
  match f with
  | Missing => previous
  | Blank => zero
  | Malformed => previous
  | Value a => a
  end.

(** The value a field that is read only when it is given leaves in a
    column. *)
Definition given_value {A : Type} (f : field A) (previous : A) : A :=
  match f with
  | Value a => a
  | _ => previous
  end.

(** The product that [product_update] stores for a well-formed form. *)
Definition updated_product (p : Product.t) (form : ProductForm.t)
    : Product.t :=
  Product.mk (Product.id p)
    (Py.strip (form_get (ProductForm.ref_produit form) (Product.ref_produit p)))
    (form_get (ProductForm.nom_produit form) (Product.nom_produit p))
    (updated_value (ProductForm.prix_achat form) (Product.prix_achat p)
       (Q2Qc 0))
    (updated_value (ProductForm.prix_std form) (Product.prix_std p) (Q2Qc 0)).

(** The invoice that [invoice_update] stores for a well-formed form. *)
Definition updated_invoice (inv : Facture.t) (form : InvoiceForm.t)
    : Facture.t :=
  Facture.mk (Facture.id inv)
    (Py.strip (form_get (InvoiceForm.numero form) (Facture.numero inv)))
    (given_value (InvoiceForm.date_vente form) (Facture.date_vente inv))
    (given_value (InvoiceForm.client_id form) (Facture.client_id inv))
    (updated_value (InvoiceForm.nbr_colis form) (Facture.nbr_colis inv) 0)
    (Facture.finalized inv).

(** Another row than the one with primary key [k] holds [key]. *)
Definition held_by_other {A : Type} (id : A -> Z) (col : A -> string)
    (k : Z) (key : string) (rows : list A) : Prop :=
  exists x, In x rows /\ id x <> k /\ col x = key.





(** The primary keys and the UNIQUE columns of the schema hold. *)
Record keys_ok (db : DB) : Prop := mk_keys_ok {
  clients_pk : NoDup (map Client.id (clients db));
  products_pk : NoDup (map Product.id (products db));
  stock_entries_pk : NoDup (map StockEntry.id (stock_entries db));
  factures_pk : NoDup (map Facture.id (factures db));
  invoice_lines_pk : NoDup (map InvoiceLine.id (invoice_lines db));
  return_lines_pk : NoDup (map ReturnLine.id (return_lines db));
  payments_pk : NoDup (map Payment.id (payments db));
  payment_applications_pk :
    NoDup (map PaymentApplication.id (payment_applications db));
  products_ref_unique : NoDup (map Product.ref_produit (products db));
  factures_numero_unique : NoDup (map Facture.numero (factures db));
  payments_numero_unique : NoDup (map Payment.numero (payments db))
}.

(** [strip] leaves the text as it is. *)
Definition stripped (s : string) : Prop := Py.strip s = s.

(** The reference codes of the products and the numbers of the invoices
    carry no surrounding white space. *)
Definition keys_stripped (db : DB) : Prop :=
  Forall (fun p => stripped (Product.ref_produit p)) (products db)
  /\ Forall (fun f => stripped (Facture.numero f)) (factures db).

(** The text does not start with white space. *)
Definition no_leading_space (s : string) : Prop :=
  match s with
  | EmptyString => True
  | String c _ => Py.isspace c = false
  end.

(** Update forms that carry none of the keys. *)
Definition no_client_key : ClientForm.t := ClientForm.mk None None None None.

Definition no_product_key (qte_entree : field Z) (date_entry : field date)
    : ProductForm.t :=
  ProductForm.mk None None Missing Missing qte_entree date_entry.

Definition no_invoice_key : InvoiceForm.t :=
  InvoiceForm.mk None Missing Missing Missing.

(** A database reached from the empty one by three requests. *)
Definition first_client_form : ClientForm.t :=
  ClientForm.mk (Some "Atlas"%string) None None (Some "Casablanca"%string).

Definition first_product_form : ProductForm.t :=
  ProductForm.mk (Some " REF-1 "%string) (Some "Savon"%string)
    (Value (Py.float_of_int 4)) (Value (Py.float_of_int 10)) (Value 100)
    Missing.

Definition first_invoice_form : InvoiceForm.t :=
  InvoiceForm.mk (Some "F-001 "%string) (Value 100) (Value 1) Missing.

Definition started : DB :=
  snd (step (InvoiceNewPost first_invoice_form)
         (snd (step (ProductsPost 90 first_product_form)
                 (snd (step (ClientsPost first_client_form) empty_db))))).

(** Forms used on the example ledger. *)
Definition rename_to_ref_1 : ProductForm.t :=
  ProductForm.mk (Some "REF-1"%string) None Missing Blank Missing Missing.

Definition renumber_to_f_001 : InvoiceForm.t :=
  InvoiceForm.mk (Some " F-001"%string) Missing Blank Missing.

Definition two_of_product_1 : LineForm.t :=
  LineForm.mk (Value 1) (Value (Py.float_of_int 10)) (Value 2).

Definition one_of_product_2_back : ReturnForm.t :=
  ReturnForm.mk (Value 2) (Value (Py.float_of_int 5)) (Value 1) (Value 106).

Definition twenty_of_product_2 : StockEntryForm.t :=
  StockEntryForm.mk (Value 2) (Value 107) (Value 20).


(** ** The product list: received quantities by product *)

(** [GROUP BY key]: one group of rows for each distinct key. *)
Definition group_by {A : Type} (key : A -> Z) (rows : list A)
    : list (Z * list A) :=
  map (fun k => (k, filter (fun r => key r =? k) rows))
      (nodup Z.eq_dec (map key rows)).

(** [dict(pairs).get(k, default)]: for a repeated key the last pair counts. *)
Definition dict_get (pairs : list (Z * Z)) (k default : Z) : Z :=
  match find (fun kv => fst kv =? k) (rev pairs) with
  | Some kv => snd kv
  | None => default
  end.

(** [qte_map] of [products()], GET. *)
Definition qte_map (db : DB) : list (Z * Z) :=
  map (fun g =>
         (fst g,
          Sql.coalesce (Sql.sum_int (map StockEntry.qte_entree (snd g))) 0))
      (group_by StockEntry.product_id (stock_entries db)).

(** [qin(pid)] of [products()], GET. *)
Definition qin (db : DB) (pid : Z) : Z := dict_get (qte_map db) pid 0.

(** ** The CSV export of the clients *)





Section TextOrder.

(** [ORDER BY] on a text column is the engine's: its collation and the order
    of equal keys are not the application's. *)
Variable order_by_text : forall A : Type, (A -> string) -> list A -> list A.


End TextOrder.


(** The response body of a read-only view, and the database it leaves. *)
Definition view {A : Type} (h : M A) (db : DB) : (Exn + A) * DB :=
  let '(r, s) := h (mkSession db []) in (r, stored s).

(** An engine ordering: rows are compared by the text column byte by byte,
    and rows with equal keys stay in table order. *)
Fixpoint insert_by_text {A : Type} (col : A -> string) (x : A) (l : list A)
    : list A :=
  match l with
  | [] => [x]
  | y :: l' =>
      if String.leb (col x) (col y) then x :: l
      else y :: insert_by_text col x l'
  end.

Definition sort_by_text (A : Type) (col : A -> string) (l : list A)
    : list A :=
  fold_right (insert_by_text col) [] l.


(** ** Authentication: the gate, login and logout *)

Definition PUBLIC_ENDPOINTS : list string := ["login"%string; "static"%string].

(** [ep.split(".")[0]]. *)
Fixpoint before_dot (s : string) : string :=
  match s with
  | EmptyString => EmptyString
  | String c s' =>
      if Ascii.eqb c "." then EmptyString else String c (before_dot s')
  end.

(** What the gate reads of a request. *)
Record Request := mkRequest {
  endpoint : option string;
  path : string
}.

Inductive Gate :=
| Pass
| RedirectToLogin (next : string).

(** [_auth_gate()], run before every request; [logged_in] is
    [session.get("logged_in")]. *)
Definition _auth_gate (request : Request) (logged_in : bool) : Gate :=
  let ep := match endpoint request with
            | Some e => e
            | None => EmptyString
            end in
  if existsb (String.eqb (before_dot ep)) PUBLIC_ENDPOINTS
     || String.eqb (path request) "/favicon.ico"
  then Pass
  else if negb logged_in then RedirectToLogin (path request)
  else Pass.

(** [login_required(view)]: the wrapper it returns. *)
Definition login_required {A : Type} (view : A) (redirect_login : string -> A)
    (request : Request) (logged_in : bool) : A :=
  if logged_in then view else redirect_login (path request).

Module LoginForm.
Record t := mk {
  username : option string;
  password : option string
}.
End LoginForm.

(** The requests of a browser. *)
Inductive Visit :=
| Ledger (a : Action)
| LoginGet
| LoginPost (form : LoginForm.t) (next : option string)
| Logout.

(** [str(n)] in a URL. *)
Definition decimal (n : Z) : string := NilZero.string_of_int (Z.to_int n).

(** The endpoint of a request: the name of its view function. *)
Definition endpoint_of (a : Action) : string :=
  match a with
  | ClientsPost _ => "clients"
  | ClientUpdate _ _ => "client_update"
  | ClientDelete _ => "client_delete"
  | ProductsPost _ _ => "products"
  | ProductUpdate _ _ => "product_update"
  | ProductDelete _ => "product_delete"
  | StockEntryPost _ => "stock_entry"
  | InvoiceNewPost _ => "invoice_new"
  | InvoiceNewGet => "invoice_new"
  | InvoiceUpdate _ _ => "invoice_update"
  | InvoiceDelete _ => "invoice_delete"
  | InvoiceToggleFinalize _ => "invoice_toggle_finalize"
  | InvoiceAddLine _ _ => "invoice_add_line"
  | InvoiceAddReturn _ _ => "invoice_add_return"
  | InvoiceFinalize _ => "invoice_finalize"
  | PaymentNewPost _ => "payment_new"
  | PaymentViewPost _ _ => "payment_view"
  | PaymentViewGet _ => "payment_view"
  | PaymentReceipt _ => "payment_receipt"
  end.

(** The path of a request, from the route of its view. *)
Definition path_of (a : Action) : string :=
  match a with
  | ClientsPost _ => "/clients"
  | ClientUpdate k _ => "/clients/" ++ decimal k ++ "/update"
  | ClientDelete k => "/clients/" ++ decimal k ++ "/delete"
  | ProductsPost _ _ => "/products"
  | ProductUpdate k _ => "/products/" ++ decimal k ++ "/update"
  | ProductDelete k => "/products/" ++ decimal k ++ "/delete"
  | StockEntryPost _ => "/stock_entry"
  | InvoiceNewPost _ => "/invoices/new"
  | InvoiceNewGet => "/invoices/new"
  | InvoiceUpdate k _ => "/invoices/" ++ decimal k ++ "/update"
  | InvoiceDelete k => "/invoices/" ++ decimal k ++ "/delete"
  | InvoiceToggleFinalize k =>
      "/invoices/" ++ decimal k ++ "/toggle_finalize"
  | InvoiceAddLine k _ => "/invoices/" ++ decimal k ++ "/add_line"
  | InvoiceAddReturn k _ => "/invoices/" ++ decimal k ++ "/add_return"
  | InvoiceFinalize k => "/invoices/" ++ decimal k ++ "/finalize"
  | PaymentNewPost _ => "/payments/new"
  | PaymentViewPost k _ => "/payments/" ++ decimal k
  | PaymentViewGet k => "/payments/" ++ decimal k
  | PaymentReceipt k => "/payments/" ++ decimal k ++ "/receipt"
  end%string.

Definition request_of (v : Visit) : Request :=
  match v with
  | Ledger a => mkRequest (Some (endpoint_of a)) (path_of a)
  | LoginGet => mkRequest (Some "login"%string) "/login"
  | LoginPost _ _ => mkRequest (Some "login"%string) "/login"
  | Logout => mkRequest (Some "logout"%string) "/logout"
  end.

(** What the browser receives. *)
Inductive Outcome :=
| Answered (r : Response)
| LoginPage (flashed : option Flash)
| RedirectedTo (flashed : option Flash) (location : string)
| SentToLogin (next : string).

Section Auth.

(** [app.config] and werkzeug's [check_password_hash]. *)
Variables (LOGIN_USERNAME LOGIN_PASSWORD_HASH : string)
          (check_password_hash : string -> string -> bool).

(** [login()], POST. *)
Definition login_post (form : LoginForm.t) (next : option string)
    (logged_in : bool) : Outcome * bool :=
  let user := Py.strip (form_get (LoginForm.username form) "") in
  let pwd := form_get (LoginForm.password form) "" in
  if String.eqb user LOGIN_USERNAME
     && check_password_hash LOGIN_PASSWORD_HASH pwd
  then
    let next_url :=
      match next with
      | Some (String c n) => String c n
      | _ => "/"%string
      end in
    (RedirectedTo (Some (mkFlash "Connecté." "success")) next_url, true)
  else
    (LoginPage (Some (mkFlash "Identifiants invalides." "danger")),
     logged_in).

(** [login()], GET. *)
Definition login_get (logged_in : bool) : Outcome * bool :=
  (LoginPage None, logged_in).

(** [logout()]. *)
Definition logout (logged_in : bool) : Outcome * bool :=
  (RedirectedTo (Some (mkFlash "Déconnecté." "info")) "/login", false).

(** One request of a browser: the gate, then the view.  The state is the
    browser's [logged_in] and the database. *)
Definition visit (v : Visit) (st : bool * DB) : Outcome * (bool * DB) :=
  let '(logged_in, db) := st in
  match _auth_gate (request_of v) logged_in with
  | RedirectToLogin next => (SentToLogin next, st)
  | Pass =>
      match v with
      | Ledger a =>
          let '(r, db') := step a db in (Answered r, (logged_in, db'))
      | LoginGet =>
          let '(o, l) := login_get logged_in in (o, (l, db))
      | LoginPost form next =>
          let '(o, l) := login_post form next logged_in in (o, (l, db))
      | Logout =>
          let '(o, l) := logout logged_in in (o, (l, db))
      end
  end.

(** The credentials that [login] accepts. *)
Definition accepted (form : LoginForm.t) : bool :=
  String.eqb (Py.strip (form_get (LoginForm.username form) ""))
             LOGIN_USERNAME
  && check_password_hash LOGIN_PASSWORD_HASH
       (form_get (LoginForm.password form) "").

Definition logs_in (v : Visit) : bool :=
  match v with
  | LoginPost form _ => accepted form
  | _ => false
  end.

End Auth.

(** The state after a sequence of requests of one browser. *)
Definition browse (LOGIN_USERNAME LOGIN_PASSWORD_HASH : string)
    (check_password_hash : string -> string -> bool)
    (visits : list Visit) (st : bool * DB) : bool * DB :=
  fold_left
    (fun st v =>
       snd (visit LOGIN_USERNAME LOGIN_PASSWORD_HASH check_password_hash v st))
    visits st.

(** ** The inventory *)

Module InventoryRow.
Record t := mk {
  ref : string;
  nom : string;
  qte_entree : Z;
  prix_achat : Qc;
  total_achat : Qc;
  prix_vente_std : Qc;
  qte_vendu : Z;
  total_vente : Qc;
  stock : Z
}.
End InventoryRow.

Record InventoryPage := mkInventoryPage {
  inventory_rows : list InventoryRow.t;
  inventory_total_achat : Qc;
  inventory_total_vente : Qc;
  inventory_total_benef : Qc
}.

(** The value of the finalized sales of a product, as [inventory] queries
    it. *)
Definition prod_sales (db : DB) (prod_id : Z) : Qc :=
  Py.or_float
    (Sql.coalesce
       (Sql.sum_float
          (map (fun lf =>
                  (Py.float_of_int (InvoiceLine.qte_vnd (fst lf))
                   * InvoiceLine.prix_vnt (fst lf))%Qc)
             (filter
                (fun lf => (InvoiceLine.product_id (fst lf) =? prod_id)
                           && Bool.eqb (Facture.finalized (snd lf)) true)
                (Sql.join
                   (fun l f => Facture.id f =? InvoiceLine.facture_id l)
                   (invoice_lines db) (factures db)))))
       (Q2Qc 0))
    (Q2Qc 0).

(** The value of the returns of a product, as [inventory] queries it. *)
Definition prod_returns (db : DB) (prod_id : Z) : Qc :=
  Py.or_float
    (Sql.coalesce
       (Sql.sum_float
          (map (fun r =>
                  (Py.float_of_int (ReturnLine.qte_retour r)
                   * ReturnLine.prix_vnt r)%Qc)
             (filter (fun r => ReturnLine.product_id r =? prod_id)
                     (return_lines db))))
       (Q2Qc 0))
    (Q2Qc 0).

(** One turn of the loop of [inventory]: the row of the product [p]. *)
Definition inventory_row (db : DB) (p : Product.t) : InventoryRow.t :=
  let qin :=
    Py.or_int
      (Sql.coalesce
         (Sql.sum_int
            (map StockEntry.qte_entree
               (filter (fun e => StockEntry.product_id e =? Product.id p)
                       (stock_entries db))))
         0)
      0 in
  let qsold :=
    Py.or_int
      (Sql.coalesce
         (Sql.sum_int
            (map (fun lf => InvoiceLine.qte_vnd (fst lf))
               (filter
                  (fun lf =>
                     (InvoiceLine.product_id (fst lf) =? Product.id p)
                     && Bool.eqb (Facture.finalized (snd lf)) true)
                  (Sql.join
                     (fun l f => Facture.id f =? InvoiceLine.facture_id l)
                     (invoice_lines db) (factures db)))))
         0)
      0 in
  let qret :=
    Py.or_int
      (Sql.coalesce
         (Sql.sum_int
            (map ReturnLine.qte_retour
               (filter (fun r => ReturnLine.product_id r =? Product.id p)
                       (return_lines db))))
         0)
      0 in
  let available := qin - qsold + qret in
  let totalvente :=
    (prod_sales db (Product.id p) - prod_returns db (Product.id p))%Qc in
  let totalachat :=
    (Py.float_of_int qin * Py.or_float (Product.prix_achat p) (Q2Qc 0))%Qc in
  InventoryRow.mk (Product.ref_produit p) (Product.nom_produit p) qin
    (Product.prix_achat p) totalachat (Product.prix_std p)
    (Z.max (qsold - qret) 0) totalvente available.

Section InventoryView.

Variable order_by_text : forall A : Type, (A -> string) -> list A -> list A.

(** [inventory()]. *)
Definition inventory : M InventoryPage :=
  products <-
    query (fun db => order_by_text _ Product.nom_produit (products db)) ;;
  rows <- query (fun db => map (inventory_row db) products) ;;
  let total_achat :=
    fold_left (fun acc r => (acc + InventoryRow.total_achat r)%Qc) rows
      (Q2Qc 0) in
  let total_vente :=
    fold_left (fun acc r => (acc + InventoryRow.total_vente r)%Qc) rows
      (Q2Qc 0) in
  let total_benef := (total_vente - total_achat)%Qc in
  ret (mkInventoryPage rows total_achat total_vente total_benef).

End InventoryView.




(** ** The payment list and the client history *)








Section Views.

Variable order_by_text : forall A : Type, (A -> string) -> list A -> list A.

(** [ORDER BY] on one date column, descending: the order of rows of the same
    date is the engine's. *)
Variable order_by_desc : forall A : Type, (A -> date) -> list A -> list A.



End Views.




(** A stand-in for the password check, for examples: the stored hash is the
    password read backwards. *)
Fixpoint reversed (s : string) : string :=
  match s with
  | EmptyString => EmptyString
  | String c s' => (reversed s' ++ String c EmptyString)%string
  end.

Definition reversed_check (pwhash password : string) : bool :=
  String.eqb pwhash (reversed password).

Definition good_login : LoginForm.t :=
  LoginForm.mk (Some " admin "%string) (Some "secret"%string).

Definition bad_login : LoginForm.t :=
  LoginForm.mk (Some "admin"%string) (Some "Secret"%string).

(** * Tactics: symbolic execution of the handlers *)

Ltac exec :=
  unfold step, run, handler,
    clients_post, client_update, client_delete, products_post, product_update,
    product_delete, stock_entry, invoice_new_post, invoice_new_get,
    invoice_update, invoice_delete, invoice_toggle_finalize, invoice_add_line,
    invoice_add_return, invoice_finalize, payment_new_post, payment_view_post,
    payment_view_get, payment_receipt,
    add_new, get_or_404, try_except, commit, rollback, record_write, query,
    form_item, convert, convert_get_or, given, bind, ret, raise;
  cbn [stored pending app flush apply_write fst snd].

Ltac case_step :=
  match goal with
  | |- context [match ?x with _ => _ end] =>
      match x with
      | context [match _ with _ => _ end] => fail 1
      | _ => destruct x eqn:?
      end
  end; cbn [stored pending app flush apply_write fst snd factures
            with_clients with_products with_stock_entries with_factures
            with_invoice_lines with_return_lines with_payments
            with_payment_applications] in *.

Ltac norm :=
  cbn [stored pending app flush apply_write fst snd orb flash_category
       flash_redirect category clients products stock_entries factures
       invoice_lines return_lines payments payment_applications
       with_clients with_products with_stock_entries with_factures
       with_invoice_lines with_return_lines with_payments
       with_payment_applications].

Ltac exec_monad :=
  unfold add_new, get_or_404, try_except, commit, rollback, record_write,
    query, form_item, convert, convert_get_or, given, bind, ret, raise;
  norm.


(** Evaluation on concrete data. *)

Ltac qc_eval := apply Qc_is_canon; vm_compute; reflexivity.

Ltac nodup_eval :=
  repeat (constructor; [cbn; intuition discriminate|]); constructor.

Ltac no_row_eval :=
  let x := fresh "x" in
  let Hin := fresh "Hin" in
  let E := fresh "E" in
  intros [x [Hin E]]; cbn in Hin;
  repeat (destruct Hin as [Hin|Hin]; [subst x; vm_compute in E; discriminate E|]);
  exact Hin.

(** * Properties *)

(** ** Sums *)

Section Sums.

Local Open Scope Qc_scope.

Lemma fold_left_Qcplus (l : list Qc) (a : Qc) :
  fold_left Qcplus l a = a + Qsum l.
Proof.
  revert a; induction l as [|x l IH]; intro a; simpl.
  - ring.
  - rewrite IH. ring.
Qed.

Lemma Py_sum_float_Qsum (l : list Qc) : Py.sum_float l = Qsum l.
Proof. unfold Py.sum_float. rewrite fold_left_Qcplus. ring. Qed.

Lemma Sql_sum_float_Qsum (l : list Qc) :
  Py.or_float (Sql.coalesce (Sql.sum_float l) (Q2Qc 0)) (Q2Qc 0) = Qsum l.
Proof.
  destruct l as [|x l].
  - simpl. unfold Py.or_float. destruct (Qc_eq_dec _ _); reflexivity.
  - unfold Sql.sum_float, Sql.coalesce.
    change (fold_left Qcplus (x :: l) (Q2Qc 0)) with (Py.sum_float (x :: l)).
    rewrite Py_sum_float_Qsum. unfold Py.or_float.
    destruct (Qc_eq_dec _ _) as [E|E]; [symmetry; exact E | reflexivity].
Qed.

Lemma Qsum_app (l1 l2 : list Qc) : Qsum (l1 ++ l2) = Qsum l1 + Qsum l2.
Proof.
  induction l1 as [|x l1 IH]; simpl.
  - ring.
  - rewrite IH. ring.
Qed.

End Sums.

Lemma fold_left_Zadd (l : list Z) (a : Z) : fold_left Z.add l a = a + Zsum l.
Proof.
  revert a; induction l as [|x l IH]; intro a; simpl; [|rewrite IH]; lia.
Qed.

Lemma Sql_sum_int_Zsum (l : list Z) :
  Py.or_int (Sql.coalesce (Sql.sum_int l) 0) 0 = Zsum l.
Proof.
  destruct l as [|x l]; [reflexivity|].
  unfold Sql.sum_int, Sql.coalesce. rewrite fold_left_Zadd.
  unfold Py.or_int. destruct (Z.eqb_spec (0 + Zsum (x :: l)) 0); lia.
Qed.

(** ** Joins on a primary key *)

Lemma filter_none {A : Type} (f : A -> bool) (l : list A) :
  (forall x, In x l -> f x = false) -> filter f l = [].
Proof.
  induction l as [|a l IH]; intro H; simpl; [reflexivity|].
  rewrite (H a (or_introl eq_refl)). apply IH.
  intros x Hx. apply H. right. exact Hx.
Qed.

Section Join.

Context {A B : Type} (id : B -> Z).

Lemma filter_key_lookup (k : Z) (lb : list B) :
  NoDup (map id lb) ->
  filter (fun b => id b =? k) lb =
  match lookup id k lb with Some b => [b] | None => [] end.
Proof.
  unfold lookup.
  induction lb as [|b lb IH]; intro ND; simpl; [reflexivity|].
  inversion ND as [|? ? Hnotin ND']; subst.
  destruct (Z.eqb_spec (id b) k) as [E|E]; [|apply IH; assumption].
  f_equal. apply filter_none. intros x Hx.
  apply Z.eqb_neq. intro Hk. apply Hnotin.
  rewrite E, <- Hk. apply in_map. exact Hx.
Qed.

(** A join on the primary key of [B] selects, for each row of [A], the
    row of [B] that its foreign key designates. *)
Lemma join_lookup {X : Type} (fk : A -> Z) (P : A -> B -> bool) (g : A -> X)
    (la : list A) (lb : list B) :
  NoDup (map id lb) ->
  map (fun ab => g (fst ab))
      (filter (fun ab => P (fst ab) (snd ab))
              (Sql.join (fun a b => id b =? fk a) la lb)) =
  map g (filter (fun a => match lookup id (fk a) lb with
                          | Some b => P a b
                          | None => false
                          end) la).
Proof.
  intro ND. unfold Sql.join.
  induction la as [|a la IH]; simpl; [reflexivity|].
  rewrite filter_app, map_app, IH.
  rewrite (filter_key_lookup (fk a) lb ND).
  destruct (lookup id (fk a) lb) as [b|]; simpl; [|reflexivity].
  destruct (P a b); reflexivity.
Qed.

End Join.

(** ** The client balance *)

Lemma eqb_true (b : bool) : Bool.eqb b true = b.
Proof. destruct b; reflexivity. Qed.

Lemma payments_applied_by_client_spec (db : DB) (client_id : Z) :
  NoDup (map Facture.id (factures db)) ->
  payments_applied_by_client db client_id =
  Qsum (map PaymentApplication.amount_applied
          (filter (application_of_client db client_id)
                  (payment_applications db))).
Proof.
  intro ND. unfold payments_applied_by_client.
  rewrite Sql_sum_float_Qsum.
  rewrite (join_lookup Facture.id PaymentApplication.facture_id
             (fun _ f => Facture.client_id f =? client_id)
             PaymentApplication.amount_applied _ _ ND).
  reflexivity.
Qed.

Lemma invoice_totals_by_client_spec (db : DB) (client_id : Z) :
  invoice_totals_by_client db client_id =
  Qsum (map (fun i => total_ttc db i TVA_RATE)
          (filter (fun i => (Facture.client_id i =? client_id)
                            && Facture.finalized i)
                  (factures db))).
Proof.
  unfold invoice_totals_by_client. rewrite Py_sum_float_Qsum.
  do 2 f_equal. apply filter_ext. intro i. rewrite eqb_true. reflexivity.
Qed.

Lemma totals_ignore_applications (db : DB) f (client_id : Z) :
  invoice_totals_by_client (with_payment_applications f db) client_id =
  invoice_totals_by_client db client_id.
Proof. reflexivity. Qed.

Lemma lookup_In {A : Type} (id : A -> Z) (l : list A) (x : A) :
  NoDup (map id l) -> In x l -> lookup id (id x) l = Some x.
Proof.
  unfold lookup. induction l as [|y l IH]; intros ND Hin; [destruct Hin|].
  inversion ND as [|? ? Hnotin ND']; subst. simpl.
  destruct Hin as [->|Hin]; [rewrite Z.eqb_refl; reflexivity|].
  destruct (Z.eqb_spec (id y) (id x)) as [E|E]; [|apply IH; assumption].
  exfalso. apply Hnotin. rewrite E. apply in_map. exact Hin.
Qed.

(** C1.  The balance of a client is the sum of [total_ttc] over the client's
    finalized invoices minus the sum of [amount_applied] over every payment
    application whose invoice belongs to the client, finalized or not: an
    application on a non-finalized invoice of the client lowers the balance
    by its amount although that invoice is not among the invoices added. *)
Theorem client_balance_spec (db : DB) (client_id : Z) :
  NoDup (map Facture.id (factures db)) ->
  client_balance db client_id =
    (Qsum (map (fun i => total_ttc db i TVA_RATE)
             (filter (fun i => (Facture.client_id i =? client_id)
                               && Facture.finalized i)
                     (factures db)))
     - Qsum (map PaymentApplication.amount_applied
               (filter (application_of_client db client_id)
                       (payment_applications db))))%Qc
  /\ forall (f : Facture.t) (a : PaymentApplication.t),
       In f (factures db) ->
       Facture.client_id f = client_id ->
       Facture.finalized f = false ->
       PaymentApplication.facture_id a = Facture.id f ->
       let db' := with_payment_applications (fun t => t ++ [a]) db in
       ~ In f (filter (fun i => (Facture.client_id i =? client_id)
                                && Facture.finalized i)
                      (factures db'))
       /\ client_balance db' client_id =
          (client_balance db client_id
           - PaymentApplication.amount_applied a)%Qc.
Proof.
  intro ND. split.
  - unfold client_balance.
    rewrite invoice_totals_by_client_spec, payments_applied_by_client_spec
      by exact ND.
    reflexivity.
  - intros f a Hin Hc Hf Ha db'. split.
    + intro H. apply filter_In in H. destruct H as [_ H].
      rewrite Hf, andb_false_r in H. discriminate H.
    + assert (E : forall x, application_of_client db' client_id x =
                          application_of_client db client_id x)
        by reflexivity.
      unfold client_balance.
      change (invoice_totals_by_client db' client_id)
        with (invoice_totals_by_client db client_id).
      rewrite (payments_applied_by_client_spec db'),
              (payments_applied_by_client_spec db) by exact ND.
      rewrite (filter_ext _ _ E).
      change (payment_applications db') with (payment_applications db ++ [a]).
      rewrite filter_app, map_app, Qsum_app.
      assert (Ea : application_of_client db client_id a = true).
      { unfold application_of_client, invoice_of.
        rewrite Ha, (lookup_In Facture.id _ f ND Hin), Hc.
        apply Z.eqb_refl. }
      simpl. rewrite Ea. simpl. ring.
Qed.

(** ** The stock summary *)

(** C2.  The stock summary of a product: the quantity received is the sum
    of its stock entries; the quantity sold net of returns is
    [max (S - R) 0], with [S] the quantity on lines of finalized invoices and
    [R] the quantity on all return lines; the quantity available is
    [received - S + R], which is not floored and is negative when the
    product is oversold. *)
Theorem stock_summary_spec (db : DB) (prod_id : Z) :
  NoDup (map Facture.id (factures db)) ->
  stock_summary_for_product db prod_id =
    {| qte_entree := received_of db prod_id;
       qte_vendue := Z.max (sold_of db prod_id - returned_of db prod_id) 0;
       stock_disponible :=
         received_of db prod_id - sold_of db prod_id + returned_of db prod_id |}
  /\ (received_of db prod_id + returned_of db prod_id < sold_of db prod_id ->
      stock_disponible (stock_summary_for_product db prod_id) < 0).
Proof.
  intro ND.
  assert (E : stock_summary_for_product db prod_id =
    {| qte_entree := received_of db prod_id;
       qte_vendue := Z.max (sold_of db prod_id - returned_of db prod_id) 0;
       stock_disponible :=
         received_of db prod_id - sold_of db prod_id
         + returned_of db prod_id |}).
  { unfold stock_summary_for_product.
    rewrite !Sql_sum_int_Zsum.
    rewrite (join_lookup Facture.id InvoiceLine.facture_id
               (fun l f => (InvoiceLine.product_id l =? prod_id)
                           && Bool.eqb (Facture.finalized f) true)
               InvoiceLine.qte_vnd _ _ ND).
    fold (received_of db prod_id) (returned_of db prod_id).
    replace (Zsum (map InvoiceLine.qte_vnd _)) with (sold_of db prod_id);
      [reflexivity|].
    unfold sold_of. do 2 f_equal. apply filter_ext. intro l.
    unfold line_on_finalized, invoice_of.
    destruct (lookup Facture.id (InvoiceLine.facture_id l) (factures db));
      [rewrite eqb_true; reflexivity | apply andb_false_r]. }
  split; [exact E|].
  rewrite E. simpl. lia.
Qed.



Lemma lookup_Some_id {A : Type} (id : A -> Z) (k : Z) (l : list A) (x : A) :
  lookup id k l = Some x -> In x l /\ id x = k.
Proof.
  unfold lookup. intro H. apply find_some in H.
  destruct H as [Hin H]. split; [exact Hin | apply Z.eqb_eq; exact H].
Qed.


(** ** Invoice totals, payment remainders and receipts *)


(** C3.  [total_ht] is the sum of price times quantity over the invoice
    lines of the invoice, [total_tva] is [total_ht] times 0.20 and
    [total_ttc] is their sum; return lines play no part; an invoice without
    lines has three zero totals; computing the totals leaves the session and
    the database as they are. *)
Theorem invoice_totals_spec (db : DB) (inv : Facture.t) :
  total_ht db inv =
    Qsum (map (fun l => (InvoiceLine.prix_vnt l
                         * Py.float_of_int (InvoiceLine.qte_vnd l))%Qc)
            (filter (fun l => InvoiceLine.facture_id l =? Facture.id inv)
                    (invoice_lines db)))
  /\ total_tva db inv TVA_RATE = (total_ht db inv * Q2Qc (1 # 5))%Qc
  /\ total_ttc db inv TVA_RATE =
       (total_ht db inv + total_tva db inv TVA_RATE)%Qc
  /\ (forall g,
        total_ht (with_return_lines g db) inv = total_ht db inv
        /\ total_tva (with_return_lines g db) inv TVA_RATE =
             total_tva db inv TVA_RATE
        /\ total_ttc (with_return_lines g db) inv TVA_RATE =
             total_ttc db inv TVA_RATE)
  /\ (Facture_lines db inv = [] ->
        total_ht db inv = Q2Qc 0
        /\ total_tva db inv TVA_RATE = Q2Qc 0
        /\ total_ttc db inv TVA_RATE = Q2Qc 0)
  /\ (forall s : Session,
        snd (query (fun d => (total_ht d inv, total_tva d inv TVA_RATE,
                              total_ttc d inv TVA_RATE)) s) = s)
  /\ snd (step InvoiceNewGet db) = db.
Proof.
  split; [|split; [|split; [|split; [|split; [|split]]]]].
  - unfold total_ht. rewrite Py_sum_float_Qsum. reflexivity.
  - reflexivity.
  - reflexivity.
  - intro g. repeat split.
  - intro H. unfold total_ttc, total_tva, total_ht. rewrite H. simpl.
    unfold Py.sum_float. simpl. repeat split; ring.
  - intro s. reflexivity.
  - reflexivity.
Qed.

(** C4.  The remaining amount of a payment is its amount minus the sum of
    the amounts of its applications, with no floor: it is negative when the
    applications exceed the amount.  [payment_view] shows that figure. *)
Theorem payment_remaining_spec (db : DB) (pay : Payment.t) :
  let applied :=
    Qsum (map PaymentApplication.amount_applied
            (filter (fun a => PaymentApplication.payment_id a =? Payment.id pay)
                    (payment_applications db))) in
  payment_remaining db pay = (Payment.montant_pymt pay - applied)%Qc
  /\ ((Payment.montant_pymt pay < applied)%Qc ->
      (payment_remaining db pay < Q2Qc 0)%Qc)
  /\ (forall payment_id,
        lookup Payment.id payment_id (payments db) = Some pay ->
        step (PaymentViewGet payment_id) db =
          (PaymentViewPage pay (payment_remaining db pay), db)).
Proof.
  intro applied.
  assert (E : payment_remaining db pay
              = (Payment.montant_pymt pay - applied)%Qc).
  { unfold payment_remaining. rewrite Py_sum_float_Qsum. reflexivity. }
  split; [exact E|]. split.
  - intro H. rewrite E. apply Qclt_minus_iff. apply Qclt_minus_iff in H.
    replace (Q2Qc 0 + - (Payment.montant_pymt pay - applied))%Qc
      with (applied + - Payment.montant_pymt pay)%Qc by ring.
    exact H.
  - intros payment_id H.
    unfold step, run, handler, payment_view_get, get_or_404, bind, query.
    simpl. rewrite H. reflexivity.
Qed.


(** ** Rows and primary keys *)

Section Rows.

Context {A : Type} (id : A -> Z).

Lemma lookup_app_l (k : Z) (l l' : list A) (x : A) :
  lookup id k l = Some x -> lookup id k (l ++ l') = Some x.
Proof.
  unfold lookup. induction l as [|y l IH]; simpl; [discriminate|].
  destruct (id y =? k); [trivial | exact IH].
Qed.

Lemma lookup_replace_row (k : Z) (r : A) (l : list A) :
  lookup id k (replace_row id r l) =
  option_map (fun x => if id x =? id r then r else x) (lookup id k l).
Proof.
  unfold lookup, replace_row. induction l as [|y l IH]; simpl; [reflexivity|].
  destruct (Z.eqb_spec (id y) (id r)) as [E|E].
  - rewrite <- E. destruct (id y =? k); [simpl|rewrite E; exact IH].
    rewrite Z.eqb_refl. reflexivity.
  - destruct (id y =? k); [simpl|exact IH].
    destruct (Z.eqb_spec (id y) (id r)); [contradiction|reflexivity].
Qed.

Lemma lookup_remove_row (k k' : Z) (l : list A) :
  lookup id k (remove_row id k' l) =
  if k =? k' then None else lookup id k l.
Proof.
  unfold lookup, remove_row. induction l as [|y l IH]; simpl.
  - destruct (k =? k'); reflexivity.
  - destruct (Z.eqb_spec (id y) k') as [E|E]; simpl.
    + rewrite IH. destruct (Z.eqb_spec k k') as [E'|E']; [reflexivity|].
      destruct (Z.eqb_spec (id y) k); [congruence|reflexivity].
    + destruct (Z.eqb_spec (id y) k) as [E'|E']; [|exact IH].
      destruct (Z.eqb_spec k k'); [congruence|reflexivity].
Qed.

Lemma NoDup_map_eq {K : Type} (col : A -> K) (l : list A) (x y : A) :
  NoDup (map col l) -> In x l -> In y l -> col x = col y -> x = y.
Proof.
  induction l as [|z l IH]; intros ND Hx Hy E; [destruct Hx|].
  inversion ND as [|? ? Hnotin ND']; subst.
  destruct Hx as [->|Hx], Hy as [->|Hy]; trivial.
  - exfalso. apply Hnotin. rewrite E. apply in_map. exact Hy.
  - exfalso. apply Hnotin. rewrite <- E. apply in_map. exact Hx.
  - apply IH; assumption.
Qed.

Lemma key_taken_self (col : A -> string) (l : list A) (x : A) :
  NoDup (map col l) -> In x l -> key_taken id col (id x) (col x) l = false.
Proof.
  intros ND Hx. unfold key_taken.
  destruct (existsb _ l) eqn:E; [|reflexivity].
  apply existsb_exists in E. destruct E as [y [Hy E]].
  apply andb_true_iff in E. destruct E as [Hid Hcol].
  apply String.eqb_eq in Hcol.
  rewrite (NoDup_map_eq col l y x ND Hy Hx Hcol), Z.eqb_refl in Hid.
  discriminate Hid.
Qed.

Lemma truthy_count (f : A -> bool) (l : list A) :
  Py.truthy (Py.or_int (Sql.count (filter f l)) 0) = existsb f l.
Proof.
  unfold Py.truthy, Py.or_int, Sql.count.
  induction l as [|x l IH]; simpl; [reflexivity|].
  destruct (f x); simpl; [|exact IH].
  destruct (Z.eqb_spec (Z.of_nat (S (List.length (filter f l)))) 0) as [E|E];
    [lia|].
  destruct (Z.eqb_spec (Z.of_nat (S (List.length (filter f l)))) 0);
    [lia | reflexivity].
Qed.

Lemma existsb_false (f : A -> bool) (l : list A) :
  (forall x, In x l -> f x = false) -> existsb f l = false.
Proof.
  intro H. destruct (existsb f l) eqn:E; [|reflexivity].
  apply existsb_exists in E. destruct E as [x [Hx E]].
  rewrite (H x Hx) in E. discriminate E.
Qed.

End Rows.

(** ** The finalization flag *)

Lemma frame_factures (a : Action) (db : DB) :
  match a with
  | InvoiceNewPost _ | InvoiceUpdate _ _ | InvoiceDelete _
  | InvoiceToggleFinalize _ | InvoiceFinalize _ => True
  | _ => factures (snd (step a db)) = factures db
  end.
Proof.
  destruct a; try exact I.
  all: exec.
  all: repeat case_step; reflexivity.
Qed.

Lemma flag_kept_by_replace (db : DB) (k i : Z) (inv r f f' : Facture.t) :
  lookup Facture.id i (factures db) = Some inv ->
  Facture.id r = Facture.id inv ->
  Facture.finalized r = Facture.finalized inv ->
  lookup Facture.id k (factures db) = Some f ->
  lookup Facture.id k (replace_row Facture.id r (factures db)) = Some f' ->
  Facture.finalized f' = Facture.finalized f.
Proof.
  intros Hi Hid Hfin Hk Hk'.
  rewrite lookup_replace_row, Hk in Hk'. simpl in Hk'.
  destruct (Z.eqb_spec (Facture.id f) (Facture.id r)) as [E|E];
    inversion Hk'; subst; [|reflexivity].
  pose proof (lookup_Some_id _ _ _ _ Hk) as [_ Hk''].
  pose proof (lookup_Some_id _ _ _ _ Hi) as [_ Hi'].
  assert (k = i) by congruence. subst k.
  rewrite Hfin. congruence.
Qed.

Lemma no_automatic_transition (a : Action) (db : DB) (k : Z)
    (f f' : Facture.t) :
  changes_flag a = false ->
  lookup Facture.id k (factures db) = Some f ->
  lookup Facture.id k (factures (snd (step a db))) = Some f' ->
  Facture.finalized f' = Facture.finalized f.
Proof.
  intros Ha Hk. pose proof (frame_factures a db) as Hfr.
  destruct a; try discriminate Ha;
    try (cbv beta iota in Hfr; rewrite Hfr; congruence); clear Hfr.
  - (* invoice_new, POST *)
    exec. repeat case_step; try congruence.
    all: intro H; rewrite (lookup_app_l _ _ _ _ _ Hk) in H; congruence.
  - (* invoice_update *)
    exec. repeat case_step; try congruence.
    all: intro H;
      match goal with
      | Hi : lookup Facture.id _ (factures ?d) = Some ?inv,
        Hf : lookup Facture.id _ (factures ?d) = Some ?f |- _ =>
          apply (flag_kept_by_replace d _ _ inv _ f _ Hi) in H;
            [exact H | reflexivity | reflexivity | exact Hf]
      end.
  - (* invoice_delete *)
    exec. repeat case_step; try congruence.
    all: intro H; rewrite lookup_remove_row in H;
      destruct (k =? _); congruence.
Qed.

Lemma key_unchanged {A : Type} (id : A -> Z) (col : A -> string) (k : Z)
    (old r : A) (rows : list A) :
  lookup id k rows = Some old -> id r = id old -> col r = col old ->
  key_changed id col r rows = false.
Proof.
  intros Hk Hid Hcol. unfold key_changed.
  pose proof (lookup_Some_id _ _ _ _ Hk) as [_ E].
  rewrite Hid, E, Hk, Hcol, String.eqb_refl. reflexivity.
Qed.

Lemma toggle_commits (db : DB) (invoice_id : Z) (inv : Facture.t) :
  lookup Facture.id invoice_id (factures db) = Some inv ->
  step (InvoiceToggleFinalize invoice_id) db =
    (flash_redirect "Statut de finalisation mis à jour." "success"
       url_invoice_new,
     with_factures
       (replace_row Facture.id
          (Facture.set_finalized (negb (Facture.finalized inv)) inv))
       db).
Proof.
  intro Hi. exec. rewrite Hi.
  cbn [stored pending app flush apply_write fst snd].
  rewrite (key_unchanged Facture.id Facture.numero invoice_id inv
             (Facture.set_finalized (negb (Facture.finalized inv)) inv) _ Hi
             eq_refl eq_refl).
  reflexivity.
Qed.

Lemma finalize_commits (db : DB) (invoice_id : Z) (inv : Facture.t) :
  lookup Facture.id invoice_id (factures db) = Some inv ->
  step (InvoiceFinalize invoice_id) db =
    (flash_redirect "Invoice finalized." "success"
       (url_invoice_view (Facture.id inv)),
     with_factures
       (replace_row Facture.id (Facture.set_finalized true inv)) db).
Proof.
  intro Hi. exec. rewrite Hi.
  cbn [stored pending app flush apply_write fst snd].
  rewrite (key_unchanged Facture.id Facture.numero invoice_id inv
             (Facture.set_finalized true inv) _ Hi eq_refl eq_refl).
  reflexivity.
Qed.

Lemma lookup_replaced (db : DB) (k : Z) (inv r : Facture.t) :
  lookup Facture.id k (factures db) = Some inv ->
  Facture.id r = Facture.id inv ->
  lookup Facture.id k (replace_row Facture.id r (factures db)) = Some r.
Proof.
  intros Hi Hid. rewrite lookup_replace_row, Hi. simpl.
  rewrite Hid, Z.eqb_refl. reflexivity.
Qed.

Lemma lookup_not_replaced (db : DB) (i k : Z) (inv r : Facture.t) :
  lookup Facture.id i (factures db) = Some inv ->
  Facture.id r = Facture.id inv ->
  k <> i ->
  lookup Facture.id k (replace_row Facture.id r (factures db)) =
  lookup Facture.id k (factures db).
Proof.
  intros Hi Hid Hk. rewrite lookup_replace_row.
  destruct (lookup Facture.id k (factures db)) as [f|] eqn:E; [|reflexivity].
  simpl. apply lookup_Some_id in E. destruct E as [_ E].
  apply lookup_Some_id in Hi. destruct Hi as [_ Hi].
  destruct (Z.eqb_spec (Facture.id f) (Facture.id r)); [congruence|reflexivity].
Qed.

(** C7.  The toggle request flips the [finalized] flag of the invoice, in
    either direction, and changes nothing else: the other fields of the
    invoice, the other invoices and the other tables are as before.  No
    request other than the toggle and the finalize requests changes the flag
    of an invoice. *)
Theorem finalization_state_machine (db : DB) :
  (forall (invoice_id : Z) (inv : Facture.t),
      lookup Facture.id invoice_id (factures db) = Some inv ->
      let db' := snd (step (InvoiceToggleFinalize invoice_id) db) in
      exists inv',
        lookup Facture.id invoice_id (factures db') = Some inv'
        /\ Facture.finalized inv' = negb (Facture.finalized inv)
        /\ Facture.id inv' = Facture.id inv
        /\ Facture.numero inv' = Facture.numero inv
        /\ Facture.date_vente inv' = Facture.date_vente inv
        /\ Facture.client_id inv' = Facture.client_id inv
        /\ Facture.nbr_colis inv' = Facture.nbr_colis inv
        /\ db' = with_factures (replace_row Facture.id inv') db
        /\ (forall k, k <> invoice_id ->
              lookup Facture.id k (factures db') =
              lookup Facture.id k (factures db)))
  /\ (forall (a : Action) (k : Z) (f f' : Facture.t),
        changes_flag a = false ->
        lookup Facture.id k (factures db) = Some f ->
        lookup Facture.id k (factures (snd (step a db))) = Some f' ->
        Facture.finalized f' = Facture.finalized f).
Proof.
  split.
  - intros invoice_id inv Hi db'. subst db'.
    rewrite (toggle_commits db invoice_id inv Hi).
    exists (Facture.set_finalized (negb (Facture.finalized inv)) inv).
    cbn [snd factures with_factures].
    split; [apply (lookup_replaced db invoice_id inv); trivial|].
    repeat (split; [reflexivity|]).
    intros k Hk. apply (lookup_not_replaced db invoice_id k inv); trivial.
  - intros a k f f'. apply no_automatic_transition.
Qed.

(** ** Deletion guards *)

Lemma referenced_existsb {A : Type} (fk : A -> Z) (k : Z) (rows : list A) :
  referenced fk k rows -> existsb (fun x => fk x =? k) rows = true.
Proof.
  intros [x [Hx E]]. apply existsb_exists. exists x.
  split; [exact Hx | apply Z.eqb_eq; exact E].
Qed.

Lemma not_referenced_existsb {A : Type} (fk : A -> Z) (k : Z)
    (rows : list A) :
  ~ referenced fk k rows -> existsb (fun x => fk x =? k) rows = false.
Proof.
  intro H. apply existsb_false. intros x Hx. apply Z.eqb_neq.
  intro E. apply H. exists x. split; assumption.
Qed.

Ltac guard_exec H :=
  exec; rewrite H; cbn [stored pending app flush apply_write fst snd];
  rewrite !truthy_count.

(** C5.  Deleting a client that an invoice or a payment references, a
    product that an invoice line or a stock entry references, or an invoice
    that a payment application references is rejected and leaves the
    database unchanged; otherwise the row is deleted and, for an invoice,
    its invoice lines and return lines with it. *)
Theorem deletion_guards (db : DB) :
  (forall (client_id : Z) (c : Client.t),
      lookup Client.id client_id (clients db) = Some c ->
      (referenced Facture.client_id client_id (factures db)
       \/ referenced Payment.client_id client_id (payments db) ->
       flash_category (fst (step (ClientDelete client_id) db)) = Some "warning"%string
       /\ snd (step (ClientDelete client_id) db) = db)
      /\ (~ referenced Facture.client_id client_id (factures db) ->
          ~ referenced Payment.client_id client_id (payments db) ->
          flash_category (fst (step (ClientDelete client_id) db)) = Some "success"%string
          /\ snd (step (ClientDelete client_id) db) =
               with_clients (remove_row Client.id client_id) db
          /\ lookup Client.id client_id
               (clients (snd (step (ClientDelete client_id) db))) = None))
  /\ (forall (product_id : Z) (p : Product.t),
        lookup Product.id product_id (products db) = Some p ->
        (referenced InvoiceLine.product_id product_id (invoice_lines db)
         \/ referenced StockEntry.product_id product_id (stock_entries db) ->
         flash_category (fst (step (ProductDelete product_id) db)) = Some "warning"%string
         /\ snd (step (ProductDelete product_id) db) = db)
        /\ (~ referenced InvoiceLine.product_id product_id (invoice_lines db) ->
            ~ referenced StockEntry.product_id product_id (stock_entries db) ->
            flash_category (fst (step (ProductDelete product_id) db)) = Some "success"%string
            /\ snd (step (ProductDelete product_id) db) =
                 with_products (remove_row Product.id product_id) db
            /\ lookup Product.id product_id
                 (products (snd (step (ProductDelete product_id) db))) = None))
  /\ (forall (invoice_id : Z) (inv : Facture.t),
        lookup Facture.id invoice_id (factures db) = Some inv ->
        (referenced PaymentApplication.facture_id invoice_id
           (payment_applications db) ->
         flash_category (fst (step (InvoiceDelete invoice_id) db)) = Some "warning"%string
         /\ snd (step (InvoiceDelete invoice_id) db) = db)
        /\ (~ referenced PaymentApplication.facture_id invoice_id
              (payment_applications db) ->
            let db' := snd (step (InvoiceDelete invoice_id) db) in
            flash_category (fst (step (InvoiceDelete invoice_id) db)) = Some "success"%string
            /\ lookup Facture.id invoice_id (factures db') = None
            /\ factures db' = remove_row Facture.id invoice_id (factures db)
            /\ invoice_lines db' =
                 filter (fun l => negb (InvoiceLine.facture_id l =? invoice_id))
                        (invoice_lines db)
            /\ return_lines db' =
                 filter (fun r => negb (ReturnLine.facture_id r =? invoice_id))
                        (return_lines db)
            /\ clients db' = clients db
            /\ products db' = products db
            /\ stock_entries db' = stock_entries db
            /\ payments db' = payments db
            /\ payment_applications db' = payment_applications db)).
Proof.
  split; [|split].
  - intros client_id c Hc.
    pose proof (lookup_Some_id _ _ _ _ Hc) as [_ Hid].
    split.
    + intro Href. guard_exec Hc. rewrite Hid.
      destruct Href as [Href|Href]; apply referenced_existsb in Href;
        rewrite Href, ?orb_true_r; norm; split; reflexivity.
    + intros Hf Hp. guard_exec Hc. rewrite Hid.
      rewrite (not_referenced_existsb _ _ _ Hf),
              (not_referenced_existsb _ _ _ Hp).
      norm. rewrite ?Hid. split; [reflexivity|]. split; [reflexivity|].
      rewrite lookup_remove_row, Z.eqb_refl. reflexivity.
  - intros product_id p Hp.
    pose proof (lookup_Some_id _ _ _ _ Hp) as [_ Hid].
    split.
    + intro Href. guard_exec Hp. rewrite Hid.
      destruct Href as [Href|Href]; apply referenced_existsb in Href;
        rewrite Href, ?orb_true_r; norm; split; reflexivity.
    + intros Hl He. guard_exec Hp. rewrite Hid.
      rewrite (not_referenced_existsb _ _ _ Hl),
              (not_referenced_existsb _ _ _ He).
      norm. rewrite ?Hid. split; [reflexivity|]. split; [reflexivity|].
      rewrite lookup_remove_row, Z.eqb_refl. reflexivity.
  - intros invoice_id inv Hi.
    pose proof (lookup_Some_id _ _ _ _ Hi) as [_ Hid].
    split.
    + intro Href. guard_exec Hi. rewrite Hid.
      apply referenced_existsb in Href. rewrite Href. norm.
      split; reflexivity.
    + intros Ha db'. subst db'. guard_exec Hi. rewrite Hid.
      rewrite (not_referenced_existsb _ _ _ Ha). norm. rewrite ?Hid.
      split; [reflexivity|]. split.
      * rewrite lookup_remove_row, Z.eqb_refl. reflexivity.
      * repeat split.
Qed.

(** ** Uniqueness violations *)

Lemma holds_key_in {A : Type} (col : A -> string) (key : string)
    (rows : list A) :
  holds_key col key rows <-> key_in col key rows = true.
Proof.
  unfold holds_key, key_in. rewrite existsb_exists.
  split; intros [x [Hx E]]; exists x; (split; [exact Hx|]);
    apply String.eqb_eq; exact E.
Qed.

Lemma failed_creation_unchanged (a : Action) (db : DB) :
  creates_unique a = true ->
  flash_category (fst (step a db)) = Some "danger"%string ->
  snd (step a db) = db.
Proof.
  intro Ha. destruct a; try discriminate Ha; clear Ha.
  all: exec; repeat case_step; norm; intro H;
    try reflexivity; discriminate H.
Qed.

Lemma duplicate_product_fails (db : DB) (today : date) (form : ProductForm.t)
    (ref nom : string) (pa ps : Qc) :
  ProductForm.ref_produit form = Some ref ->
  ProductForm.nom_produit form = Some nom ->
  value_or (ProductForm.prix_achat form) (Q2Qc 0) = Some pa ->
  value_or (ProductForm.prix_std form) (Q2Qc 0) = Some ps ->
  holds_key Product.ref_produit (Py.strip ref) (products db) ->
  step (ProductsPost today form) db =
    (flash_redirect "Error: UNIQUE constraint failed: products.ref_produit"
       "danger" url_products, db).
Proof.
  intros Href Hnom Hpa Hps Hdup. apply holds_key_in in Hdup.
  exec. rewrite Href, Hnom. norm.
  destruct (ProductForm.prix_achat form); try discriminate Hpa;
    destruct (ProductForm.prix_std form); try discriminate Hps;
    norm; cbn [Product.ref_produit]; rewrite Hdup; destruct db; reflexivity.
Qed.

Lemma duplicate_invoice_fails (db : DB) (form : InvoiceForm.t)
    (numero : string) (d : date) (client_id nbr_colis : Z) :
  InvoiceForm.numero form = Some numero ->
  value_of (InvoiceForm.date_vente form) = Some d ->
  value_of (InvoiceForm.client_id form) = Some client_id ->
  value_or (InvoiceForm.nbr_colis form) 0 = Some nbr_colis ->
  holds_key Facture.numero (Py.strip numero) (factures db) ->
  step (InvoiceNewPost form) db =
    (flash_redirect "Error: UNIQUE constraint failed: factures.numero"
       "danger" url_invoice_new, db).
Proof.
  intros Hnum Hd Hc Hn Hdup. apply holds_key_in in Hdup.
  exec. rewrite Hnum. norm.
  destruct (InvoiceForm.date_vente form); try discriminate Hd;
    destruct (InvoiceForm.client_id form); try discriminate Hc;
    destruct (InvoiceForm.nbr_colis form); try discriminate Hn;
    norm; cbn [Facture.numero]; rewrite Hdup; destruct db; reflexivity.
Qed.

Lemma duplicate_payment_fails (db : DB) (form : PaymentForm.t)
    (numero : string) (client_id : Z) (d : date) (montant : Qc) :
  PaymentForm.numero form = Some numero ->
  value_of (PaymentForm.client_id form) = Some client_id ->
  value_of (PaymentForm.date_pymt form) = Some d ->
  value_of (PaymentForm.montant_pymt form) = Some montant ->
  PaymentForm.date_echeance form <> Malformed ->
  holds_key Payment.numero numero (payments db) ->
  step (PaymentNewPost form) db =
    (flash_redirect "Error: UNIQUE constraint failed: payments.numero"
       "danger" url_payment_new, db).
Proof.
  intros Hnum Hc Hd Hm He Hdup. apply holds_key_in in Hdup.
  exec. rewrite Hnum. norm.
  destruct (PaymentForm.client_id form); try discriminate Hc;
    destruct (PaymentForm.date_pymt form); try discriminate Hd;
    destruct (PaymentForm.montant_pymt form); try discriminate Hm;
    destruct (PaymentForm.date_echeance form); try contradiction;
    norm; cbn [Payment.numero]; rewrite Hdup; destruct db; reflexivity.
Qed.

(** C6.  When the creation of a product, an invoice or a payment fails on
    its UNIQUE column, the database, and so the output of every calculator,
    is what it was before the request; a duplicate reference code or number
    makes the creation fail in that way. *)
Theorem uniqueness_violation_rolls_back (db : DB) :
  (forall a : Action,
      creates_unique a = true ->
      flash_category (fst (step a db)) = Some "danger"%string ->
      let db' := snd (step a db) in
      db' = db
      /\ (forall c, client_balance db' c = client_balance db c)
      /\ (forall p, stock_summary_for_product db' p =
                    stock_summary_for_product db p)
      /\ (forall i, total_ttc db' i TVA_RATE = total_ttc db i TVA_RATE)
      /\ (forall pay, payment_remaining db' pay = payment_remaining db pay))
  /\ (forall today form ref nom pa ps,
        ProductForm.ref_produit form = Some ref ->
        ProductForm.nom_produit form = Some nom ->
        value_or (ProductForm.prix_achat form) (Q2Qc 0) = Some pa ->
        value_or (ProductForm.prix_std form) (Q2Qc 0) = Some ps ->
        holds_key Product.ref_produit (Py.strip ref) (products db) ->
        flash_category (fst (step (ProductsPost today form) db))
          = Some "danger"%string
        /\ snd (step (ProductsPost today form) db) = db)
  /\ (forall form numero d client_id nbr_colis,
        InvoiceForm.numero form = Some numero ->
        value_of (InvoiceForm.date_vente form) = Some d ->
        value_of (InvoiceForm.client_id form) = Some client_id ->
        value_or (InvoiceForm.nbr_colis form) 0 = Some nbr_colis ->
        holds_key Facture.numero (Py.strip numero) (factures db) ->
        flash_category (fst (step (InvoiceNewPost form) db))
          = Some "danger"%string
        /\ snd (step (InvoiceNewPost form) db) = db)
  /\ (forall form numero client_id d montant,
        PaymentForm.numero form = Some numero ->
        value_of (PaymentForm.client_id form) = Some client_id ->
        value_of (PaymentForm.date_pymt form) = Some d ->
        value_of (PaymentForm.montant_pymt form) = Some montant ->
        PaymentForm.date_echeance form <> Malformed ->
        holds_key Payment.numero numero (payments db) ->
        flash_category (fst (step (PaymentNewPost form) db))
          = Some "danger"%string
        /\ snd (step (PaymentNewPost form) db) = db).
Proof.
  split; [|split; [|split]].
  - intros a Ha Hfail db'. subst db'.
    rewrite (failed_creation_unchanged a db Ha Hfail). repeat split.
  - intros today form ref nom pa ps H1 H2 H3 H4 H5.
    rewrite (duplicate_product_fails db today form ref nom pa ps H1 H2 H3 H4 H5).
    split; reflexivity.
  - intros form numero d client_id nbr_colis H1 H2 H3 H4 H5.
    rewrite (duplicate_invoice_fails db form numero d client_id nbr_colis
               H1 H2 H3 H4 H5).
    split; reflexivity.
  - intros form numero client_id d montant H1 H2 H3 H4 H5 H6.
    rewrite (duplicate_payment_fails db form numero client_id d montant
               H1 H2 H3 H4 H5 H6).
    split; reflexivity.
Qed.

(** ** Product creation and the first stock entry *)

Lemma convert_get_or_value {A : Type} (f : field A) (z a : A) :
  value_or f z = Some a -> convert_get_or f z z = ret a.
Proof.
  destruct f; simpl; intro H; try discriminate H;
    injection H as <-; reflexivity.
Qed.

(** C9.  Creating a product commits the product first; a received quantity
    above zero then records one stock entry for the new product, with that
    quantity and the date of the form or today's date; a quantity that is
    zero, negative or absent records none.  The stock entry is a second
    write: when it cannot be built, the product stays committed. *)
Theorem product_creation_stock_entry (db : DB) (today : date)
    (form : ProductForm.t) (ref nom : string) (pa ps : Qc) :
  ProductForm.ref_produit form = Some ref ->
  ProductForm.nom_produit form = Some nom ->
  value_or (ProductForm.prix_achat form) (Q2Qc 0) = Some pa ->
  value_or (ProductForm.prix_std form) (Q2Qc 0) = Some ps ->
  ~ holds_key Product.ref_produit (Py.strip ref) (products db) ->
  let p :=
    Product.mk (Sql.next_id (map Product.id (products db)))
      (Py.strip ref) (Py.strip nom) pa ps in
  let db' := snd (step (ProductsPost today form) db) in
  products db' = products db ++ [p]
  /\ (forall q d,
        ProductForm.qte_entree form = Value q ->
        0 < q ->
        entry_date today (ProductForm.date_entry form) = Some d ->
        stock_entries db' =
          stock_entries db
          ++ [StockEntry.mk (Sql.next_id (map StockEntry.id (stock_entries db)))
                (Product.id p) d q]
        /\ flash_category (fst (step (ProductsPost today form) db))
             = Some "success"%string)
  /\ (forall q,
        value_or (ProductForm.qte_entree form) 0 = Some q ->
        q <= 0 ->
        stock_entries db' = stock_entries db
        /\ flash_category (fst (step (ProductsPost today form) db))
             = Some "success"%string)
  /\ (forall q,
        ProductForm.qte_entree form = Value q ->
        0 < q ->
        ProductForm.date_entry form = Malformed ->
        stock_entries db' = stock_entries db
        /\ fst (step (ProductsPost today form) db) = HttpError 500).
Proof.
  intros Href Hnom Hpa Hps Hnew p db'.
  assert (Hk : key_in Product.ref_produit (Py.strip ref) (products db) = false).
  { destruct (key_in _ _ _) eqn:E; [|reflexivity].
    exfalso. apply Hnew. apply holds_key_in. exact E. }
  subst p db'.
  unfold step, run, handler, products_post.
  rewrite Href, Hnom, (convert_get_or_value _ _ _ Hpa),
    (convert_get_or_value _ _ _ Hps).
  split; [|split; [|split]].
  - exec_monad. cbn [Product.ref_produit]. rewrite Hk. norm.
    destruct (ProductForm.qte_entree form) as [| | |q]; norm;
      try reflexivity.
    destruct (0 <? q); norm; [|reflexivity].
    destruct (ProductForm.date_entry form); norm; reflexivity.
  - intros q d Hq Hpos Hd. rewrite Hq.
    exec_monad. cbn [Product.ref_produit Product.id]. rewrite Hk. norm.
    destruct (Z.ltb_spec 0 q); [|lia].
    destruct (ProductForm.date_entry form); try discriminate Hd;
      injection Hd as <-; norm; split; reflexivity.
  - intros q Hq Hneg.
    exec_monad. cbn [Product.ref_produit]. rewrite Hk. norm.
    destruct (ProductForm.qte_entree form) as [| | |q']; try discriminate Hq;
      injection Hq as <-; norm; try (split; reflexivity).
    destruct (Z.ltb_spec 0 q'); [lia|]. norm. split; reflexivity.
  - intros q Hq Hpos Hd. rewrite Hq, Hd.
    exec_monad. cbn [Product.ref_produit]. rewrite Hk. norm.
    destruct (Z.ltb_spec 0 q); [|lia]. norm. split; reflexivity.
Qed.

(** ** The keys of [factures] are an invariant *)

Lemma next_id_above (ids : list Z) (k : Z) : In k ids -> k < Sql.next_id ids.
Proof.
  unfold Sql.next_id. induction ids as [|i ids IH]; intro H;
    [destruct H|].
  cbn [fold_right]. destruct H as [E|H]; [lia|]. specialize (IH H). lia.
Qed.

Lemma next_id_fresh (ids : list Z) : ~ In (Sql.next_id ids) ids.
Proof. intro H. apply next_id_above in H. lia. Qed.

Lemma NoDup_snoc {A : Type} (l : list A) (x : A) :
  NoDup l -> ~ In x l -> NoDup (l ++ [x]).
Proof.
  induction l as [|y l IH]; intros ND Hx; simpl.
  - constructor; [intros []|constructor].
  - inversion ND as [|? ? Hy ND']; subst. constructor.
    + intro H. apply in_app_or in H. destruct H as [H|[H|[]]].
      * exact (Hy H).
      * apply Hx. left. symmetry. exact H.
    + apply IH; [exact ND'|]. intro H. apply Hx. right. exact H.
Qed.

Lemma remove_row_keeps_NoDup {A K : Type} (id : A -> Z) (col : A -> K)
    (k : Z) (rows : list A) :
  NoDup (map col rows) -> NoDup (map col (remove_row id k rows)).
Proof.
  unfold remove_row. intro ND.
  induction rows as [|r rows IH]; [exact ND|].
  apply NoDup_cons_iff in ND. destruct ND as [Hr ND].
  cbn [filter]. destruct (negb (id r =? k)); [|exact (IH ND)].
  cbn [map]. apply NoDup_cons; [|exact (IH ND)].
  rewrite in_map_iff. intros [x [E Hx]].
  apply Hr. rewrite <- E. apply in_map.
  apply filter_In in Hx. exact (proj1 Hx).
Qed.

Section ReplaceRow.

Context {A : Type} (id : A -> Z) (col : A -> string).

Lemma map_id_replace_row (r : A) (l : list A) :
  map id (replace_row id r l) = map id l.
Proof.
  unfold replace_row. rewrite map_map. apply map_ext. intro x.
  destruct (Z.eqb_spec (id x) (id r)); congruence.
Qed.

Lemma replace_row_absent (r : A) (l : list A) :
  ~ In (id r) (map id l) -> replace_row id r l = l.
Proof.
  unfold replace_row. induction l as [|x l IH]; intro H; simpl; [reflexivity|].
  destruct (Z.eqb_spec (id x) (id r)) as [E|E].
  - exfalso. apply H. left. exact E.
  - f_equal. apply IH. intro Hin. apply H. right. exact Hin.
Qed.

Lemma key_not_taken (r x : A) (l : list A) :
  key_taken id col (id r) (col r) l = false ->
  In x l -> id x <> id r -> col x <> col r.
Proof.
  unfold key_taken. intros H Hx Hid E.
  assert (T : existsb (fun y => negb (id y =? id r) && (col y =? col r)%string)
                l = true).
  { apply existsb_exists. exists x. split; [exact Hx|].
    apply andb_true_iff. split.
    - apply negb_true_iff. apply Z.eqb_neq. exact Hid.
    - apply String.eqb_eq. exact E. }
  rewrite T in H. discriminate H.
Qed.

Lemma NoDup_col_replace_row (r : A) (l : list A) :
  NoDup (map id l) -> NoDup (map col l) ->
  key_taken id col (id r) (col r) l = false ->
  NoDup (map col (replace_row id r l)).
Proof.
  induction l as [|x l IH]; intros NDi NDc Hk; [constructor|].
  inversion NDi as [|? ? Hi NDi']; subst.
  inversion NDc as [|? ? Hc NDc']; subst.
  assert (Hk' : key_taken id col (id r) (col r) l = false).
  { unfold key_taken in *. simpl in Hk. apply orb_false_iff in Hk. tauto. }
  unfold replace_row. simpl. fold (replace_row id r l).
  destruct (Z.eqb_spec (id x) (id r)) as [E|E].
  - rewrite replace_row_absent by (rewrite <- E; exact Hi).
    constructor; [|exact NDc'].
    intro H. apply in_map_iff in H. destruct H as [y [Ey Hy]].
    apply (key_not_taken r y l Hk' Hy); [|exact Ey].
    intro Eid. apply Hi. rewrite E, <- Eid. apply in_map. exact Hy.
  - constructor; [|apply IH; assumption].
    intro H. apply in_map_iff in H. destruct H as [y [Ey Hy]].
    unfold replace_row in Hy. apply in_map_iff in Hy.
    destruct Hy as [z [Ez Hz]].
    destruct (Z.eqb_spec (id z) (id r)); subst y.
    + apply (key_not_taken r x (x :: l) Hk (or_introl eq_refl) E).
      symmetry. exact Ey.
    + apply Hc. rewrite <- Ey. apply in_map. exact Hz.
Qed.

Lemma NoDup_col_update (r : A) (l : list A) :
  NoDup (map id l) -> NoDup (map col l) ->
  key_changed id col r l && key_taken id col (id r) (col r) l = false ->
  NoDup (map col (replace_row id r l)).
Proof.
  intros NDi NDc H.
  destruct (key_taken id col (id r) (col r) l) eqn:T;
    [|apply NoDup_col_replace_row; assumption].
  rewrite andb_true_r in H. unfold key_changed in H.
  destruct (lookup id (id r) l) as [old|] eqn:L.
  - (* the key is the one the row already holds: no other row holds it *)
    exfalso. apply negb_false_iff, String.eqb_eq in H.
    apply lookup_Some_id in L. destruct L as [Hold Eid].
    unfold key_taken in T. apply existsb_exists in T.
    destruct T as [y [Hy T]]. apply andb_true_iff in T.
    destruct T as [Tid Tcol]. apply String.eqb_eq in Tcol.
    assert (y = old)
      by (apply (NoDup_map_eq col l); trivial; congruence).
    subst y. rewrite Eid, Z.eqb_refl in Tid. discriminate Tid.
  - (* no row has the primary key: nothing is replaced *)
    rewrite replace_row_absent; [exact NDc|].
    intro Hin. apply in_map_iff in Hin. destruct Hin as [x [E Hx]].
    unfold lookup in L. apply (find_none _ _ L) in Hx.
    rewrite E, Z.eqb_refl in Hx. discriminate Hx.
Qed.

End ReplaceRow.

Lemma key_in_absent {A : Type} (col : A -> string) (key : string)
    (l : list A) :
  key_in col key l = false -> ~ In key (map col l).
Proof.
  unfold key_in. intros H Hin. apply in_map_iff in Hin.
  destruct Hin as [x [E Hx]].
  assert (T : existsb (fun y => (col y =? key)%string) l = true).
  { apply existsb_exists. exists x. split; [exact Hx|].
    apply String.eqb_eq. exact E. }
  rewrite T in H. discriminate H.
Qed.

Lemma step_facture_keys (a : Action) (db : DB) :
  facture_keys_ok db -> facture_keys_ok (snd (step a db)).
Proof.
  intros [NDi NDc]. unfold facture_keys_ok.
  pose proof (frame_factures a db) as Hfr.
  destruct a; try (cbv beta iota in Hfr; rewrite Hfr; split; assumption);
    clear Hfr.
  - (* invoice_new, POST *)
    exec. repeat case_step; try (split; assumption).
    all: rewrite !map_app; cbn [map Facture.id Facture.numero]; split;
      apply NoDup_snoc; trivial;
      [apply next_id_fresh | apply key_in_absent; assumption].
  - (* invoice_update *)
    exec. repeat case_step; try (split; assumption).
    all: rewrite map_id_replace_row; split; [assumption|];
      apply NoDup_col_update; assumption.
  - (* invoice_delete *)
    exec. repeat case_step; try (split; assumption).
    all: split; apply (remove_row_keeps_NoDup Facture.id); assumption.
  - (* invoice_toggle_finalize *)
    exec. repeat case_step; try (split; assumption).
    all: rewrite map_id_replace_row; split; [assumption|];
      apply NoDup_col_update; assumption.
  - (* invoice_finalize *)
    exec. repeat case_step; try (split; assumption).
    all: rewrite map_id_replace_row; split; [assumption|];
      apply NoDup_col_update; assumption.
Qed.

Lemma reachable_facture_keys (db : DB) : reachable db -> facture_keys_ok db.
Proof.
  induction 1 as [|a db _ IH].
  - split; constructor.
  - apply step_facture_keys. exact IH.
Qed.

(** ** The statements on the example ledger *)

(** The figures of the specification's examples. *)
Example ledger_totals :
  total_ht ledger F1 = Py.float_of_int 35
  /\ total_tva ledger F1 TVA_RATE = Py.float_of_int 7
  /\ total_ttc ledger F1 TVA_RATE = Py.float_of_int 42.
Proof. repeat split; qc_eval. Qed.

Example ledger_stock :
  stock_summary_for_product ledger 1 =
    {| qte_entree := 100; qte_vendue := 1; stock_disponible := 99 |}
  /\ stock_summary_for_product ledger 2 =
       {| qte_entree := 5; qte_vendue := 13; stock_disponible := -8 |}.
Proof. split; reflexivity. Qed.

(** The sold figure is floored: product 4 has one unit returned and none
    sold. *)
Example ledger_stock_floor :
  stock_summary_for_product ledger 4 =
    {| qte_entree := 0; qte_vendue := 0; stock_disponible := 1 |}.
Proof. reflexivity. Qed.

(** The guard of [product_delete] does not look at return lines: product 4
    is deleted and the return line that names it stays, so that the summary
    of the identifier it leaves behind is not all zeros. *)
Example deleted_product_keeps_return_lines :
  let db' := snd (step (ProductDelete 4) ledger) in
  lookup Product.id 4 (products db') = None
  /\ return_lines db' = return_lines ledger
  /\ stock_summary_for_product db' 4 =
       {| qte_entree := 0; qte_vendue := 0; stock_disponible := 1 |}.
Proof. repeat split. Qed.

Example ledger_balances :
  client_balance ledger 1 = Py.float_of_int (-108)
  /\ payment_remaining ledger P1 = Py.float_of_int (-10).
Proof. split; qc_eval. Qed.

Lemma client_balance_spec_witness :
  let a := PaymentApplication.mk 3 2 2 (Py.float_of_int 8) in
  let db' := with_payment_applications (fun t => t ++ [a]) ledger in
  NoDup (map Facture.id (factures ledger))
  /\ In F2 (factures ledger)
  /\ Facture.finalized F2 = false
  /\ client_balance db' 1 = (client_balance ledger 1 - Py.float_of_int 8)%Qc.
Proof.
  intros a db'.
  assert (ND : NoDup (map Facture.id (factures ledger))) by nodup_eval.
  assert (Hin : In F2 (factures ledger)) by (cbn; auto).
  refine (conj ND (conj Hin (conj eq_refl _))).
  exact (proj2 (proj2 (client_balance_spec ledger 1 ND) F2 a Hin
                  eq_refl eq_refl eq_refl)).
Defined.

Lemma stock_summary_spec_witness :
  NoDup (map Facture.id (factures ledger))
  /\ received_of ledger 2 + returned_of ledger 2 < sold_of ledger 2
  /\ stock_disponible (stock_summary_for_product ledger 2) < 0.
Proof.
  assert (ND : NoDup (map Facture.id (factures ledger))) by nodup_eval.
  assert (H : received_of ledger 2 + returned_of ledger 2 < sold_of ledger 2)
    by (vm_compute; reflexivity).
  refine (conj ND (conj H _)).
  exact (proj2 (stock_summary_spec ledger 2 ND) H).
Defined.


Lemma invoice_totals_spec_witness :
  Facture_lines ledger F4 = []
  /\ total_ht ledger F4 = Q2Qc 0
  /\ total_tva ledger F4 TVA_RATE = Q2Qc 0
  /\ total_ttc ledger F4 TVA_RATE = Q2Qc 0.
Proof.
  refine (conj eq_refl _).
  exact (proj1 (proj2 (proj2 (proj2 (proj2 (invoice_totals_spec ledger F4)))))
           eq_refl).
Defined.

Lemma payment_remaining_spec_witness :
  (Payment.montant_pymt P1 <
   Qsum (map PaymentApplication.amount_applied
           (filter (fun a => PaymentApplication.payment_id a =? Payment.id P1)
                   (payment_applications ledger))))%Qc
  /\ (payment_remaining ledger P1 < Q2Qc 0)%Qc
  /\ lookup Payment.id 1 (payments ledger) = Some P1
  /\ step (PaymentViewGet 1) ledger =
       (PaymentViewPage P1 (payment_remaining ledger P1), ledger).
Proof.
  assert (H : (Payment.montant_pymt P1 <
               Qsum (map PaymentApplication.amount_applied
                       (filter (fun a => PaymentApplication.payment_id a
                                         =? Payment.id P1)
                               (payment_applications ledger))))%Qc)
    by (vm_compute; reflexivity).
  refine (conj H (conj _ (conj eq_refl _))).
  - exact (proj1 (proj2 (payment_remaining_spec ledger P1)) H).
  - exact (proj2 (proj2 (payment_remaining_spec ledger P1)) 1 eq_refl).
Defined.


Lemma deletion_guards_witness :
  (* client 1 has invoices, client 3 has neither invoice nor payment *)
  (flash_category (fst (step (ClientDelete 1) ledger)) = Some "warning"%string
   /\ snd (step (ClientDelete 1) ledger) = ledger)
  /\ (flash_category (fst (step (ClientDelete 3) ledger))
        = Some "success"%string
      /\ lookup Client.id 3 (clients (snd (step (ClientDelete 3) ledger)))
           = None)
  (* product 1 is on invoice lines, product 3 is on none and has no entry *)
  /\ (flash_category (fst (step (ProductDelete 1) ledger))
        = Some "warning"%string
      /\ snd (step (ProductDelete 1) ledger) = ledger)
  /\ (flash_category (fst (step (ProductDelete 3) ledger))
        = Some "success"%string
      /\ lookup Product.id 3 (products (snd (step (ProductDelete 3) ledger)))
           = None)
  (* invoice 1 carries applications, invoice 3 carries none *)
  /\ (flash_category (fst (step (InvoiceDelete 1) ledger))
        = Some "warning"%string
      /\ snd (step (InvoiceDelete 1) ledger) = ledger)
  /\ (flash_category (fst (step (InvoiceDelete 3) ledger))
        = Some "success"%string
      /\ lookup Facture.id 3 (factures (snd (step (InvoiceDelete 3) ledger)))
           = None).
Proof.
  destruct (deletion_guards ledger) as [HC [HP HI]].
  refine (conj _ (conj _ (conj _ (conj _ (conj _ _))))).
  - apply (proj1 (HC 1 _ eq_refl)). left. exists F1. split; [cbn; auto|reflexivity].
  - destruct (proj2 (HC 3 _ eq_refl)) as [H1 [_ H2]];
      [no_row_eval | no_row_eval | exact (conj H1 H2)].
  - apply (proj1 (HP 1 _ eq_refl)). left.
    exists (InvoiceLine.mk 1 1 1 (Py.float_of_int 10) 2).
    split; [cbn; auto|reflexivity].
  - destruct (proj2 (HP 3 _ eq_refl)) as [H1 [_ H2]];
      [no_row_eval | no_row_eval | exact (conj H1 H2)].
  - apply (proj1 (HI 1 _ eq_refl)).
    exists (PaymentApplication.mk 1 1 1 (Py.float_of_int 150)).
    split; [cbn; auto|reflexivity].
  - destruct (proj2 (HI 3 _ eq_refl)) as [H1 [H2 _]];
      [no_row_eval | exact (conj H1 H2)].
Defined.

Lemma uniqueness_violation_rolls_back_witness :
  snd (step (ProductsPost 120 duplicate_product_form) ledger) = ledger
  /\ snd (step (InvoiceNewPost duplicate_invoice_form) ledger) = ledger
  /\ snd (step (PaymentNewPost duplicate_payment_form) ledger) = ledger
  /\ (forall c,
        client_balance
          (snd (step (ProductsPost 120 duplicate_product_form) ledger)) c =
        client_balance ledger c).
Proof.
  destruct (uniqueness_violation_rolls_back ledger) as [HA [HP [HI HY]]].
  assert (EP : flash_category
                 (fst (step (ProductsPost 120 duplicate_product_form) ledger))
               = Some "danger"%string
               /\ snd (step (ProductsPost 120 duplicate_product_form) ledger)
                  = ledger).
  { apply (HP 120 duplicate_product_form " REF-1 "%string
              "Savon noir"%string (Py.float_of_int 4) (Q2Qc 0));
      try reflexivity.
    exists (Product.mk 1 "REF-1" "Savon" (Py.float_of_int 4)
              (Py.float_of_int 10)).
    split; [cbn; auto | vm_compute; reflexivity]. }
  refine (conj (proj2 EP) (conj _ (conj _ _))).
  - apply (HI duplicate_invoice_form "F-002"%string 110 3 0); try reflexivity.
    exists F2. split; [cbn; auto | vm_compute; reflexivity].
  - apply (HY duplicate_payment_form "P-001"%string 3 110
              (Py.float_of_int 25)); try reflexivity.
    + discriminate.
    + exists P1. split; [cbn; auto | reflexivity].
  - exact (proj1 (proj2 (HA (ProductsPost 120 duplicate_product_form)
                            eq_refl (proj1 EP)))).
Defined.

Lemma finalization_state_machine_witness :
  (exists inv',
     lookup Facture.id 2
       (factures (snd (step (InvoiceToggleFinalize 2) ledger))) = Some inv'
     /\ Facture.finalized inv' = true)
  /\ (exists inv',
        lookup Facture.id 1
          (factures (snd (step (InvoiceToggleFinalize 1) ledger))) = Some inv'
        /\ Facture.finalized inv' = false)
  /\ Facture.finalized F2 = false.
Proof.
  destruct (finalization_state_machine ledger) as [HT HN].
  refine (conj _ (conj _ _)).
  - destruct (HT 2 F2 eq_refl) as [inv' [H1 [H2 _]]].
    exists inv'. exact (conj H1 H2).
  - destruct (HT 1 F1 eq_refl) as [inv' [H1 [H2 _]]].
    exists inv'. exact (conj H1 H2).
  - apply (HN (InvoiceAddLine 2
                 (LineForm.mk (Value 1) (Value (Py.float_of_int 10)) (Value 4)))
              2 F2 F2 eq_refl eq_refl).
    vm_compute. reflexivity.
Defined.

Lemma product_creation_stock_entry_witness :
  let db' := snd (step (ProductsPost 120 new_product_form) ledger) in
  ~ holds_key Product.ref_produit (Py.strip "REF-9 ") (products ledger)
  /\ stock_entries db' = stock_entries ledger ++ [StockEntry.mk 3 5 120 7]
  /\ flash_category (fst (step (ProductsPost 120 new_product_form) ledger))
       = Some "success"%string.
Proof.
  intro db'.
  assert (Hnew : ~ holds_key Product.ref_produit (Py.strip "REF-9 ")
                     (products ledger)) by no_row_eval.
  refine (conj Hnew _).
  exact (proj1 (proj2 (product_creation_stock_entry ledger 120
                         new_product_form "REF-9 " "Argan"
                         (Py.float_of_int 40) (Py.float_of_int 90)
                         eq_refl eq_refl eq_refl eq_refl Hnew))
           7 120 eq_refl eq_refl eq_refl).
Defined.

(** * Further properties of the handlers *)

(** X1.  A request that names a client, product, invoice or payment by
    identifier answers 404 exactly when no row has that identifier, and then
    leaves the database unchanged. *)
Theorem not_found_iff (a : Action) (db : DB) :
  (names_row a db = Some false <-> fst (step a db) = HttpError 404)
  /\ (names_row a db = Some false -> snd (step a db) = db).
Proof.
  split; [split|].
  - destruct a; cbn [names_row]; intro H; try discriminate H.
    all: exec; unfold lookup in *.
    all: match goal with
         | |- context [find ?f ?l] => destruct (find f l); [discriminate H|]
         end; reflexivity.
  - destruct a; cbn [names_row]; exec; unfold lookup;
      repeat case_step; cbn [fst error_response]; intro H;
      try discriminate H; try reflexivity.
  - destruct a; cbn [names_row]; intro H; try discriminate H.
    all: exec; unfold lookup in *.
    all: match goal with
         | |- context [find ?f ?l] => destruct (find f l); [discriminate H|]
         end; reflexivity.
Qed.

Lemma failed_unchanged (a : Action) (db : DB) :
  is_products_post a = false ->
  failed (fst (step a db)) = true ->
  snd (step a db) = db.
Proof.
  intro Ha. destruct a; try discriminate Ha; clear Ha.
  all: exec; rewrite ?truthy_count; repeat case_step; norm;
    cbn [failed error_response String.eqb Ascii.eqb Bool.eqb orb];
    intro H; try reflexivity; try discriminate H.
Qed.

Lemma failed_products_post (today : date) (form : ProductForm.t) (db : DB) :
  failed (fst (step (ProductsPost today form) db)) = true ->
  snd (step (ProductsPost today form) db) = db
  \/ exists p, snd (step (ProductsPost today form) db) =
               with_products (fun t => t ++ [p]) db.
Proof.
  exec; repeat case_step; norm;
    cbn [failed error_response String.eqb Ascii.eqb Bool.eqb orb];
    intro H; try discriminate H; try (left; reflexivity);
    right; eexists; reflexivity.
Qed.

(** X2.  Every request other than the product creation that ends in an HTTP
    error or flashes a warning or danger message leaves the committed database
    unchanged; a failing product creation leaves it unchanged or with only the
    new product appended (its stock entry is a second commit). *)
Theorem failure_leaves_database (a : Action) (db : DB) :
  failed (fst (step a db)) = true ->
  (is_products_post a = false -> snd (step a db) = db)
  /\ (is_products_post a = true ->
      snd (step a db) = db
      \/ exists p, snd (step a db) = with_products (fun t => t ++ [p]) db).
Proof.
  intro H. split; intro Ha.
  - apply failed_unchanged; assumption.
  - destruct a; try discriminate Ha. apply failed_products_post. exact H.
Qed.

(** X3.  No request removes or rewrites a payment, a payment application or a
    stock entry: after any request each of the three tables is the previous
    table followed by the rows the request appended. *)
Theorem ledgers_append_only (a : Action) (db : DB) :
  (exists l, payments (snd (step a db)) = payments db ++ l)
  /\ (exists l, payment_applications (snd (step a db))
                = payment_applications db ++ l)
  /\ (exists l, stock_entries (snd (step a db)) = stock_entries db ++ l).
Proof.
  destruct a; exec; rewrite ?truthy_count; repeat case_step; norm.
  all: repeat split;
    first [ exists []; rewrite app_nil_r; reflexivity
          | eexists; reflexivity ].
Qed.

Lemma or_float_zero (x : Qc) : Py.or_float x (Q2Qc 0) = x.
Proof.
  unfold Py.or_float. destruct (Qc_eq_dec x (Q2Qc 0)); congruence.
Qed.

Section Keys.

Context {A : Type} (id : A -> Z) (col : A -> string).

Lemma key_taken_other (k : Z) (key : string) (rows : list A) :
  held_by_other id col k key rows <-> key_taken id col k key rows = true.
Proof.
  unfold held_by_other, key_taken. rewrite existsb_exists.
  split; intros [x [Hx H]]; exists x; (split; [exact Hx|]).
  - destruct H as [Hid Hcol]. apply andb_true_iff. split.
    + apply negb_true_iff, Z.eqb_neq. exact Hid.
    + apply String.eqb_eq. exact Hcol.
  - apply andb_true_iff in H. destruct H as [Hid Hcol]. split.
    + apply Z.eqb_neq, negb_true_iff. exact Hid.
    + apply String.eqb_eq. exact Hcol.
Qed.

Lemma key_taken_none (k : Z) (key : string) (rows : list A) :
  ~ held_by_other id col k key rows -> key_taken id col k key rows = false.
Proof.
  intro H. destruct (key_taken id col k key rows) eqn:E; [|reflexivity].
  exfalso. apply H. apply key_taken_other. exact E.
Qed.

Lemma key_changed_other (k : Z) (old r : A) (rows : list A) :
  NoDup (map col rows) ->
  lookup id k rows = Some old -> id r = k ->
  held_by_other id col k (col r) rows ->
  key_changed id col r rows = true.
Proof.
  intros ND Hk Hid [x [Hx [Hxid Hcol]]]. unfold key_changed.
  rewrite Hid, Hk. apply negb_true_iff, String.eqb_neq. intro E.
  pose proof (lookup_Some_id _ _ _ _ Hk) as [Hold Eold].
  assert (x = old) by (apply (NoDup_map_eq col rows); trivial; congruence).
  congruence.
Qed.

End Keys.

(** X4.  product_update strips the submitted reference code; when another
    product already holds it the update is rejected with a danger message and
    nothing is stored, and when no other product holds it the product is
    stored with the submitted fields, a missing key keeping the stored value
    and an empty price becoming zero. *)
Theorem product_update_unique (db : DB) (product_id : Z) (p : Product.t)
    (form : ProductForm.t) :
  lookup Product.id product_id (products db) = Some p ->
  ProductForm.prix_achat form <> Malformed ->
  ProductForm.prix_std form <> Malformed ->
  let p' := updated_product p form in
  let out := step (ProductUpdate product_id form) db in
  (NoDup (map Product.ref_produit (products db)) ->
   held_by_other Product.id Product.ref_produit product_id
     (Product.ref_produit p') (products db) ->
   flash_category (fst out) = Some "danger"%string /\ snd out = db)
  /\ (~ held_by_other Product.id Product.ref_produit product_id
          (Product.ref_produit p') (products db) ->
      flash_category (fst out) = Some "success"%string
      /\ snd out = with_products (replace_row Product.id p') db
      /\ lookup Product.id product_id (products (snd out)) = Some p').
Proof.
  intros Hp Hpa Hps p' out.
  pose proof (lookup_Some_id _ _ _ _ Hp) as [_ Hid].
  assert (E : forall b,
    key_changed Product.id Product.ref_produit p' (products db)
    && key_taken Product.id Product.ref_produit (Product.id p')
         (Product.ref_produit p') (products db) = b ->
    out = if b
          then (flash_redirect
                  ("Erreur mise à jour (ref unique ?) : "
                   ++ "UNIQUE constraint failed: products.ref_produit")
                  "danger" url_products, db)
          else (flash_redirect "Produit mis à jour." "success" url_products,
                with_products (replace_row Product.id p') db)).
  { intros b Hb. subst out p'. unfold updated_product in *.
    exec. rewrite Hp. norm.
    destruct (ProductForm.prix_achat form); try contradiction;
      destruct (ProductForm.prix_std form); try contradiction;
      cbn [updated_value] in *; rewrite ?or_float_zero; norm;
      rewrite Hb; destruct b; destruct db; reflexivity. }
  split.
  - intros ND Hother.
    rewrite (E true); [split; reflexivity|].
    apply andb_true_iff. split.
    + apply (key_changed_other _ _ product_id p); trivial.
    + apply key_taken_other. cbn [Product.id p' updated_product].
      rewrite Hid. exact Hother.
  - intro Hnone.
    rewrite (E false).
    + split; [reflexivity|]. split; [reflexivity|].
      cbn [snd products with_products].
      rewrite lookup_replace_row, Hp. cbn [option_map].
      cbn [Product.id p' updated_product]. rewrite Z.eqb_refl. reflexivity.
    + apply andb_false_iff. right. apply key_taken_none.
      cbn [Product.id p' updated_product]. rewrite Hid. exact Hnone.
Qed.

(** X5.  invoice_update strips the submitted number; when another invoice
    already holds it the update is rejected with a danger message and nothing
    is stored, otherwise the invoice is stored with the submitted fields
    (missing or empty date and client keep the stored value, an empty package
    count becomes zero) and its finalized flag unchanged. *)
Theorem invoice_update_unique (db : DB) (invoice_id : Z) (inv : Facture.t)
    (form : InvoiceForm.t) :
  lookup Facture.id invoice_id (factures db) = Some inv ->
  InvoiceForm.date_vente form <> Malformed ->
  InvoiceForm.client_id form <> Malformed ->
  InvoiceForm.nbr_colis form <> Malformed ->
  let inv' := updated_invoice inv form in
  let out := step (InvoiceUpdate invoice_id form) db in
  (NoDup (map Facture.numero (factures db)) ->
   held_by_other Facture.id Facture.numero invoice_id
     (Facture.numero inv') (factures db) ->
   flash_category (fst out) = Some "danger"%string /\ snd out = db)
  /\ (~ held_by_other Facture.id Facture.numero invoice_id
          (Facture.numero inv') (factures db) ->
      flash_category (fst out) = Some "success"%string
      /\ snd out = with_factures (replace_row Facture.id inv') db
      /\ lookup Facture.id invoice_id (factures (snd out)) = Some inv').
Proof.
  intros Hi Hd Hc Hn inv' out.
  pose proof (lookup_Some_id _ _ _ _ Hi) as [_ Hid].
  assert (E : forall b,
    key_changed Facture.id Facture.numero inv' (factures db)
    && key_taken Facture.id Facture.numero (Facture.id inv')
         (Facture.numero inv') (factures db) = b ->
    out = if b
          then (flash_redirect
                  ("Erreur de mise à jour (numéro unique ?) : "
                   ++ "UNIQUE constraint failed: factures.numero")
                  "danger" url_invoice_new, db)
          else (flash_redirect "Facture mise à jour." "success"
                  url_invoice_new,
                with_factures (replace_row Facture.id inv') db)).
  { intros b Hb. subst out inv'. unfold updated_invoice in *.
    exec. rewrite Hi. norm.
    destruct (InvoiceForm.date_vente form); try contradiction;
      destruct (InvoiceForm.client_id form); try contradiction;
      destruct (InvoiceForm.nbr_colis form); try contradiction;
      cbn [updated_value given_value] in *; norm;
      rewrite Hb; destruct b; destruct db; reflexivity. }
  split.
  - intros ND Hother.
    rewrite (E true); [split; reflexivity|].
    apply andb_true_iff. split.
    + apply (key_changed_other _ _ invoice_id inv); trivial.
    + apply key_taken_other. cbn [Facture.id inv' updated_invoice].
      rewrite Hid. exact Hother.
  - intro Hnone.
    rewrite (E false).
    + split; [reflexivity|]. split; [reflexivity|].
      cbn [snd factures with_factures].
      rewrite lookup_replace_row, Hi. cbn [option_map].
      cbn [Facture.id inv' updated_invoice]. rewrite Z.eqb_refl. reflexivity.
    + apply andb_false_iff. right. apply key_taken_none.
      cbn [Facture.id inv' updated_invoice]. rewrite Hid. exact Hnone.
Qed.

Section ReplaceTwice.

Context {A : Type} (id : A -> Z).

Lemma replace_row_twice (r1 r2 : A) (l : list A) :
  id r1 = id r2 ->
  replace_row id r2 (replace_row id r1 l) = replace_row id r2 l.
Proof.
  intro E. unfold replace_row. rewrite map_map. apply map_ext. intro x.
  destruct (Z.eqb_spec (id x) (id r1)) as [E1|E1].
  - rewrite E, Z.eqb_refl.
    destruct (Z.eqb_spec (id x) (id r2)); [reflexivity|congruence].
  - reflexivity.
Qed.

Lemma replace_row_self (k : Z) (r : A) (l : list A) :
  NoDup (map id l) -> lookup id k l = Some r -> replace_row id r l = l.
Proof.
  intros ND Hk. apply lookup_Some_id in Hk. destruct Hk as [Hr _].
  unfold replace_row. rewrite <- (map_id l) at 2.
  apply map_ext_in. intros x Hx.
  destruct (Z.eqb_spec (id x) (id r)) as [E|E]; [|reflexivity].
  symmetry. apply (NoDup_map_eq id l); assumption.
Qed.

End ReplaceTwice.

Lemma set_finalized_same (inv : Facture.t) (b : bool) :
  Facture.finalized inv = b -> Facture.set_finalized b inv = inv.
Proof. intros <-. destruct inv. reflexivity. Qed.

Lemma set_finalized_twice (inv : Facture.t) (b b' : bool) :
  Facture.set_finalized b' (Facture.set_finalized b inv)
  = Facture.set_finalized b' inv.
Proof. reflexivity. Qed.

Lemma with_factures_twice (f g : list Facture.t -> list Facture.t) (db : DB) :
  with_factures g (with_factures f db)
  = with_factures (fun t => g (f t)) db.
Proof. reflexivity. Qed.

Lemma with_factures_same (f : list Facture.t -> list Facture.t) (db : DB) :
  f (factures db) = factures db -> with_factures f db = db.
Proof. unfold with_factures. intros ->. destruct db. reflexivity. Qed.

(** X6.  Toggling the finalization of an existing invoice twice restores the
    database exactly. *)
Theorem toggle_twice (db : DB) (invoice_id : Z) (inv : Facture.t) :
  lookup Facture.id invoice_id (factures db) = Some inv ->
  NoDup (map Facture.id (factures db)) ->
  snd (step (InvoiceToggleFinalize invoice_id)
         (snd (step (InvoiceToggleFinalize invoice_id) db))) = db.
Proof.
  intros Hi ND.
  rewrite (toggle_commits db invoice_id inv Hi). cbn [snd].
  set (inv' := Facture.set_finalized (negb (Facture.finalized inv)) inv).
  assert (Hi' : lookup Facture.id invoice_id
                  (factures (with_factures (replace_row Facture.id inv') db))
                = Some inv')
    by (apply (lookup_replaced db invoice_id inv); trivial).
  rewrite (toggle_commits _ invoice_id inv' Hi'). cbn [snd].
  rewrite with_factures_twice. apply with_factures_same.
  rewrite replace_row_twice by reflexivity.
  subst inv'. rewrite set_finalized_twice.
  cbn [Facture.finalized Facture.set_finalized]. rewrite negb_involutive.
  rewrite (set_finalized_same inv) by reflexivity.
  exact (replace_row_self Facture.id invoice_id inv _ ND Hi).
Qed.

(** X7.  invoice_finalize is idempotent: a second finalize request gives the
    same response and the same database as the first, whether the invoice
    exists or not. *)
Theorem finalize_idempotent (db : DB) (invoice_id : Z) :
  step (InvoiceFinalize invoice_id)
    (snd (step (InvoiceFinalize invoice_id) db))
  = step (InvoiceFinalize invoice_id) db.
Proof.
  destruct (lookup Facture.id invoice_id (factures db)) as [inv|] eqn:Hi.
  - rewrite (finalize_commits db invoice_id inv Hi). cbn [snd].
    set (inv' := Facture.set_finalized true inv).
    assert (Hi' : lookup Facture.id invoice_id
                    (factures (with_factures (replace_row Facture.id inv') db))
                  = Some inv')
      by (apply (lookup_replaced db invoice_id inv); trivial).
    rewrite (finalize_commits _ invoice_id inv' Hi').
    rewrite with_factures_twice. f_equal.
    unfold with_factures. f_equal.
    apply replace_row_twice. reflexivity.
  - assert (E : step (InvoiceFinalize invoice_id) db = (HttpError 404, db))
      by (exec; rewrite Hi; reflexivity).
    rewrite E. cbn [snd]. exact E.
Qed.

Section SplitAtKey.

Context {A : Type} (id : A -> Z).




End SplitAtKey.

Section FlagEffect.

Local Open Scope Qc_scope.

Lemma Qsum_cons (x : Qc) (l : list Qc) : Qsum (x :: l) = x + Qsum l.
Proof. reflexivity. Qed.






End FlagEffect.









Lemma Zsum_app (l1 l2 : list Z) : Zsum (l1 ++ l2) = Zsum l1 + Zsum l2.
Proof.
  unfold Zsum. induction l1 as [|x l1 IH]; cbn [app fold_right] in *; lia.
Qed.


Section AddLine.

Variables (db : DB) (inv : Facture.t) (line : InvoiceLine.t).
Hypothesis line_invoice : InvoiceLine.facture_id line = Facture.id inv.

Local Abbreviation db' := (with_invoice_lines (fun t => t ++ [line]) db).





End AddLine.


(** ** Returns, stock receipts and payment applications *)

Lemma add_return_commits (db : DB) (invoice_id : Z) (inv : Facture.t)
    (form : ReturnForm.t) (product_id : Z) (prix_vnt : Qc) (qte_retour : Z)
    (d : date) :
  lookup Facture.id invoice_id (factures db) = Some inv ->
  ReturnForm.product_id form = Value product_id ->
  ReturnForm.prix_vnt form = Value prix_vnt ->
  ReturnForm.qte_retour form = Value qte_retour ->
  ReturnForm.date form = Value d ->
  step (InvoiceAddReturn invoice_id form) db =
    (Redirect None (url_invoice_view (Facture.id inv)),
     with_return_lines
       (fun t => t ++ [ReturnLine.mk
                         (Sql.next_id (map ReturnLine.id (return_lines db)))
                         (Facture.id inv) product_id prix_vnt qte_retour d])
       db).
Proof.
  intros Hi Hp Hx Hq Hd. exec. rewrite Hi, Hp, Hx, Hq, Hd. reflexivity.
Qed.

Lemma summary_add_return (db : DB) (r : ReturnLine.t) (p : Z) :
  let q := if ReturnLine.product_id r =? p then ReturnLine.qte_retour r
           else 0 in
  let s := stock_summary_for_product db p in
  let s' := stock_summary_for_product
              (with_return_lines (fun t => t ++ [r]) db) p in
  qte_entree s' = qte_entree s
  /\ stock_disponible s' = stock_disponible s + q
  /\ (0 <= q -> qte_vendue s' <= qte_vendue s).
Proof.
  intros q s s'. subst q s s'. unfold stock_summary_for_product.
  cbn [qte_entree stock_disponible qte_vendue return_lines stock_entries
       invoice_lines factures with_return_lines].
  rewrite !Sql_sum_int_Zsum, filter_app, map_app, Zsum_app.
  cbn [filter].
  destruct (ReturnLine.product_id r =? p); cbn [map Zsum fold_right];
    repeat split; lia.
Qed.

(** X11.  Recording a return of q units leaves every invoice total and every
    client balance unchanged, leaves the received quantity unchanged, and
    raises the product's available stock by q whether the invoice is finalized
    or not. *)
Theorem add_return_effect (db : DB) (invoice_id : Z) (inv : Facture.t)
    (form : ReturnForm.t) (product_id : Z) (prix_vnt : Qc) (qte_retour : Z)
    (d : date) :
  lookup Facture.id invoice_id (factures db) = Some inv ->
  ReturnForm.product_id form = Value product_id ->
  ReturnForm.prix_vnt form = Value prix_vnt ->
  ReturnForm.qte_retour form = Value qte_retour ->
  ReturnForm.date form = Value d ->
  let db' := snd (step (InvoiceAddReturn invoice_id form) db) in
  let q p := if product_id =? p then qte_retour else 0 in
  (forall f, total_ttc db' f TVA_RATE = total_ttc db f TVA_RATE)
  /\ (forall c, client_balance db' c = client_balance db c)
  /\ (forall p,
         qte_entree (stock_summary_for_product db' p)
         = qte_entree (stock_summary_for_product db p)
         /\ stock_disponible (stock_summary_for_product db' p)
            = stock_disponible (stock_summary_for_product db p) + q p).
Proof.
  intros Hi Hp Hx Hq Hd db' q. subst db' q.
  rewrite (add_return_commits db invoice_id inv form product_id prix_vnt
             qte_retour d Hi Hp Hx Hq Hd).
  cbn [snd]. split; [reflexivity|]. split; [reflexivity|].
  intro p.
  pose proof (summary_add_return db
                (ReturnLine.mk
                   (Sql.next_id (map ReturnLine.id (return_lines db)))
                   (Facture.id inv) product_id prix_vnt qte_retour d) p)
    as [H1 [H2 _]].
  cbn [ReturnLine.product_id ReturnLine.qte_retour] in H2.
  split; assumption.
Qed.

(** X12.  A stock entry of q units for a product identifier raises that
    identifier's received and available quantities by q, leaves its sold
    figure and every other product's summary unchanged, and is recorded
    whether or not a product with that identifier exists. *)
Theorem stock_entry_effect (db : DB) (form : StockEntryForm.t)
    (product_id : Z) (d : date) (qte : Z) :
  StockEntryForm.product_id form = Value product_id ->
  StockEntryForm.date form = Value d ->
  StockEntryForm.qte_entree form = Value qte ->
  let db' := snd (step (StockEntryPost form) db) in
  let q p := if product_id =? p then qte else 0 in
  forall p,
    qte_entree (stock_summary_for_product db' p)
    = qte_entree (stock_summary_for_product db p) + q p
    /\ qte_vendue (stock_summary_for_product db' p)
       = qte_vendue (stock_summary_for_product db p)
    /\ stock_disponible (stock_summary_for_product db' p)
       = stock_disponible (stock_summary_for_product db p) + q p.
Proof.
  intros Hp Hd Hq db' q p. subst db' q.
  assert (E : step (StockEntryPost form) db =
    (flash_redirect "Stock entry recorded." "success" url_products,
     with_stock_entries
       (fun t => t ++ [StockEntry.mk
                         (Sql.next_id (map StockEntry.id (stock_entries db)))
                         product_id d qte]) db))
    by (exec; rewrite Hp, Hd, Hq; reflexivity).
  rewrite E. cbn [snd]. unfold stock_summary_for_product.
  cbn [qte_entree stock_disponible qte_vendue return_lines stock_entries
       invoice_lines factures with_stock_entries].
  rewrite !Sql_sum_int_Zsum, filter_app, map_app, Zsum_app.
  cbn [filter StockEntry.product_id].
  destruct (product_id =? p); cbn [map Zsum fold_right StockEntry.qte_entree];
    repeat split; lia.
Qed.


Section ApplyPayment.

Local Open Scope Qc_scope.

Variables (db : DB) (a : PaymentApplication.t).

Local Abbreviation db' := (with_payment_applications (fun t => t ++ [a]) db).




End ApplyPayment.


Section Reconciliation.

Local Open Scope Qc_scope.






End Reconciliation.


Ltac keep_nodup :=
  first
    [ assumption
    | rewrite map_app; apply NoDup_snoc;
      [ assumption
      | cbn [map Client.id Product.id StockEntry.id Facture.id InvoiceLine.id
             ReturnLine.id Payment.id PaymentApplication.id
             Product.ref_produit Facture.numero Payment.numero];
        first [ apply next_id_fresh | apply key_in_absent; assumption ] ]
    | rewrite map_id_replace_row; assumption
    | apply NoDup_col_update; assumption
    | apply (remove_row_keeps_NoDup Client.id); assumption
    | apply (remove_row_keeps_NoDup Product.id); assumption
    | apply (remove_row_keeps_NoDup Facture.id); assumption
    | apply (remove_row_keeps_NoDup InvoiceLine.facture_id); assumption
    | apply (remove_row_keeps_NoDup ReturnLine.facture_id); assumption ].

Lemma step_keys_ok (a : Action) (db : DB) :
  keys_ok db -> keys_ok (snd (step a db)).
Proof.
  intros [H1 H2 H3 H4 H5 H6 H7 H8 H9 H10 H11].
  destruct a; exec; rewrite ?truthy_count; repeat case_step; norm.
  all: constructor; norm; keep_nodup.
Qed.

Lemma reachable_keys (db : DB) : reachable db -> keys_ok db.
Proof.
  induction 1 as [|a db _ IH].
  - constructor; constructor.
  - apply step_keys_ok. exact IH.
Qed.

(** ** [str.strip] *)

Lemma lstrip_no_leading (s : string) : no_leading_space (Py.lstrip s).
Proof.
  induction s as [|c s IH]; cbn [Py.lstrip]; [exact I|].
  destruct (Py.isspace c) eqn:E; [exact IH | exact E].
Qed.

Lemma lstrip_fixed (s : string) : no_leading_space s -> Py.lstrip s = s.
Proof.
  destruct s as [|c s]; cbn [no_leading_space Py.lstrip]; [reflexivity|].
  intros ->. reflexivity.
Qed.

Lemma rstrip_no_leading (s : string) :
  no_leading_space s -> no_leading_space (Py.rstrip s).
Proof.
  destruct s as [|c s]; cbn [no_leading_space Py.rstrip]; [trivial|].
  intro E. destruct (Py.rstrip s); [rewrite E|]; exact E.
Qed.

Lemma rstrip_idempotent (s : string) : Py.rstrip (Py.rstrip s) = Py.rstrip s.
Proof.
  induction s as [|c s IH]; [reflexivity|]. cbn [Py.rstrip].
  destruct (Py.rstrip s) as [|d r] eqn:E.
  - destruct (Py.isspace c) eqn:Ec; [reflexivity|].
    cbn [Py.rstrip]. rewrite Ec. reflexivity.
  - cbn [Py.rstrip]. cbn [Py.rstrip] in IH.
    destruct (Py.rstrip r) as [|e r'] eqn:Er.
    + destruct (Py.isspace d) eqn:Ed; [discriminate IH|].
      rewrite IH. reflexivity.
    + rewrite IH. reflexivity.
Qed.

Lemma strip_stripped (s : string) : stripped (Py.strip s).
Proof.
  unfold stripped, Py.strip.
  rewrite (lstrip_fixed (Py.rstrip (Py.lstrip s))).
  - apply rstrip_idempotent.
  - apply rstrip_no_leading, lstrip_no_leading.
Qed.

(** ** Stored keys are stripped *)

Section ForallRows.

Context {A : Type} (id : A -> Z) (P : A -> Prop).

Lemma Forall_snoc (l : list A) (x : A) :
  Forall P l -> P x -> Forall P (l ++ [x]).
Proof.
  intros Hl Hx. apply Forall_app. split; [exact Hl|].
  constructor; [exact Hx | constructor].
Qed.

Lemma Forall_replace_row (r : A) (l : list A) :
  Forall P l -> P r -> Forall P (replace_row id r l).
Proof.
  intros Hl Hr. unfold replace_row. apply Forall_map.
  apply (Forall_impl _ (P := P)); [|exact Hl].
  intros x Hx. destruct (id x =? id r); assumption.
Qed.

Lemma Forall_remove_row (k : Z) (l : list A) :
  Forall P l -> Forall P (remove_row id k l).
Proof.
  intro Hl. unfold remove_row. rewrite Forall_forall in *.
  intros x Hx. apply filter_In in Hx. apply Hl. tauto.
Qed.

Lemma Forall_lookup (k : Z) (x : A) (l : list A) :
  Forall P l -> lookup id k l = Some x -> P x.
Proof.
  intros Hl Hk. apply lookup_Some_id in Hk.
  rewrite Forall_forall in Hl. apply Hl. tauto.
Qed.

End ForallRows.

Ltac keep_stripped :=
  first
    [ assumption
    | apply Forall_snoc; [assumption | apply strip_stripped]
    | apply Forall_replace_row; [assumption|];
      first [ apply strip_stripped
            | match goal with
              | Hk : lookup Facture.id _ _ = Some ?inv,
                HF : Forall _ (factures _) |- _ =>
                  exact (Forall_lookup Facture.id _ _ _ _ HF Hk)
              end ]
    | apply Forall_remove_row; assumption ].

Lemma step_keys_stripped (a : Action) (db : DB) :
  keys_stripped db -> keys_stripped (snd (step a db)).
Proof.
  intros [HP HF]. unfold keys_stripped.
  destruct a; exec; rewrite ?truthy_count; repeat case_step; norm.
  all: split; keep_stripped.
Qed.

Lemma reachable_stripped (db : DB) : reachable db -> keys_stripped db.
Proof.
  induction 1 as [|a db _ IH].
  - split; constructor.
  - apply step_keys_stripped. exact IH.
Qed.

Lemma with_clients_same (f : list Client.t -> list Client.t) (db : DB) :
  f (clients db) = clients db -> with_clients f db = db.
Proof. unfold with_clients. intros ->. destruct db. reflexivity. Qed.

Lemma with_products_same (f : list Product.t -> list Product.t) (db : DB) :
  f (products db) = products db -> with_products f db = db.
Proof. unfold with_products. intros ->. destruct db. reflexivity. Qed.

(** X17.  In a database reached from the empty one, an update request for an
    existing client, product or invoice whose form carries none of the keys
    succeeds and leaves the database exactly as it was. *)
Theorem update_without_keys (db : DB) :
  reachable db ->
  (forall k c,
      lookup Client.id k (clients db) = Some c ->
      step (ClientUpdate k no_client_key) db
      = (flash_redirect "Client mis à jour." "success" url_clients, db))
  /\ (forall k p q d,
         lookup Product.id k (products db) = Some p ->
         step (ProductUpdate k (no_product_key q d)) db
         = (flash_redirect "Produit mis à jour." "success" url_products, db))
  /\ (forall k inv,
         lookup Facture.id k (factures db) = Some inv ->
         step (InvoiceUpdate k no_invoice_key) db
         = (flash_redirect "Facture mise à jour." "success" url_invoice_new,
            db)).
Proof.
  intro R. pose proof (reachable_keys db R) as K.
  pose proof (reachable_stripped db R) as [SP SF].
  split; [|split].
  - intros k c Hc. exec. rewrite Hc. norm. cbn [form_get form_get_opt
      ClientForm.nom_client ClientForm.tel ClientForm.adresse ClientForm.ville
      no_client_key].
    replace (Client.mk (Client.id c) (Client.nom_client c) (Client.tel c)
               (Client.adresse c) (Client.ville c)) with c
      by (destruct c; reflexivity).
    f_equal. apply with_clients_same.
    exact (replace_row_self Client.id k c _ (clients_pk db K) Hc).
  - intros k p q d Hp. exec. rewrite Hp. norm. cbn [form_get
      ProductForm.ref_produit ProductForm.nom_produit ProductForm.prix_achat
      ProductForm.prix_std no_product_key].
    rewrite !or_float_zero.
    rewrite (Forall_lookup Product.id _ k p _ SP Hp).
    replace (Product.mk (Product.id p) (Product.ref_produit p)
               (Product.nom_produit p) (Product.prix_achat p)
               (Product.prix_std p)) with p
      by (destruct p; reflexivity).
    norm.
    rewrite (key_unchanged Product.id Product.ref_produit k p p _ Hp
               eq_refl eq_refl).
    cbn [andb]. norm. f_equal. apply with_products_same.
    exact (replace_row_self Product.id k p _ (products_pk db K) Hp).
  - intros k inv Hi. exec. rewrite Hi. norm. cbn [form_get
      InvoiceForm.numero InvoiceForm.date_vente InvoiceForm.client_id
      InvoiceForm.nbr_colis no_invoice_key].
    rewrite (Forall_lookup Facture.id _ k inv _ SF Hi).
    replace (Facture.mk (Facture.id inv) (Facture.numero inv)
               (Facture.date_vente inv) (Facture.client_id inv)
               (Facture.nbr_colis inv) (Facture.finalized inv)) with inv
      by (destruct inv; reflexivity).
    norm.
    rewrite (key_unchanged Facture.id Facture.numero k inv inv _ Hi
               eq_refl eq_refl).
    cbn [andb]. norm. f_equal. apply with_factures_same.
    exact (replace_row_self Facture.id k inv _ (factures_pk db K) Hi).
Qed.

(** X15.  Every request preserves the primary keys of the eight tables and the
    uniqueness of product reference codes, invoice numbers and payment
    numbers, so every database reached from the empty one satisfies them. *)
Theorem keys_invariant (db : DB) :
  (forall a, keys_ok db -> keys_ok (snd (step a db)))
  /\ (reachable db -> keys_ok db).
Proof.
  split; [intro a; apply step_keys_ok | apply reachable_keys].
Qed.

(** X16.  Every stored product reference code and invoice number is free of
    leading and trailing white space: creation and update both strip them, and
    no other request changes them. *)
Theorem stored_keys_stripped (db : DB) :
  (forall a, keys_stripped db -> keys_stripped (snd (step a db)))
  /\ (reachable db -> keys_stripped db).
Proof.
  split; [intro a; apply step_keys_stripped | apply reachable_stripped].
Qed.

Ltac held_eval x :=
  exists x; split; [cbn; tauto | split; [discriminate | vm_compute; reflexivity]].

Ltac not_held_eval :=
  let x := fresh "x" in
  let Hin := fresh "Hin" in
  let Hid := fresh "Hid" in
  let E := fresh "E" in
  intros [x [Hin [Hid E]]]; cbn in Hin;
  repeat (destruct Hin as [Hin|Hin];
          [subst x; first [ vm_compute in E; discriminate E
                          | exfalso; apply Hid; reflexivity ]|]);
  exact Hin.


Lemma not_found_iff_witness :
  names_row (ClientDelete 99) ledger = Some false
  /\ fst (step (ClientDelete 99) ledger) = HttpError 404
  /\ snd (step (ClientDelete 99) ledger) = ledger.
Proof.
  refine (conj eq_refl (conj _ _)).
  - exact (proj1 (proj1 (not_found_iff (ClientDelete 99) ledger)) eq_refl).
  - exact (proj2 (not_found_iff (ClientDelete 99) ledger) eq_refl).
Defined.

Lemma failure_leaves_database_witness :
  failed (fst (step (InvoiceDelete 1) ledger)) = true
  /\ snd (step (InvoiceDelete 1) ledger) = ledger.
Proof.
  refine (conj eq_refl _).
  exact (proj1 (failure_leaves_database (InvoiceDelete 1) ledger eq_refl)
           eq_refl).
Defined.

Lemma product_update_unique_witness :
  let p2 := Product.mk 2 "REF-2" "Huile" (Py.float_of_int 3)
              (Py.float_of_int 5) in
  lookup Product.id 2 (products ledger) = Some p2
  /\ NoDup (map Product.ref_produit (products ledger))
  /\ snd (step (ProductUpdate 2 rename_to_ref_1) ledger) = ledger
  /\ lookup Product.id 2
       (products (snd (step (ProductUpdate 2 (no_product_key Missing Missing))
                         ledger)))
     = Some p2.
Proof.
  intro p2.
  assert (ND : NoDup (map Product.ref_produit (products ledger)))
    by nodup_eval.
  refine (conj eq_refl (conj ND (conj _ _))).
  - apply (proj1 (product_update_unique ledger 2 p2 rename_to_ref_1 eq_refl
                    ltac:(discriminate) ltac:(discriminate)) ND).
    held_eval (Product.mk 1 "REF-1" "Savon" (Py.float_of_int 4)
                 (Py.float_of_int 10)).
  - refine (eq_trans
              (proj2 (proj2
                 (proj2 (product_update_unique ledger 2 p2
                           (no_product_key Missing Missing) eq_refl
                           ltac:(discriminate) ltac:(discriminate)) _))) _).
    + not_held_eval.
    + vm_compute. reflexivity.
Defined.

Lemma invoice_update_unique_witness :
  lookup Facture.id 2 (factures ledger) = Some F2
  /\ NoDup (map Facture.numero (factures ledger))
  /\ snd (step (InvoiceUpdate 2 renumber_to_f_001) ledger) = ledger
  /\ flash_category (fst (step (InvoiceUpdate 2 no_invoice_key) ledger))
     = Some "success"%string.
Proof.
  assert (ND : NoDup (map Facture.numero (factures ledger))) by nodup_eval.
  refine (conj eq_refl (conj ND (conj _ _))).
  - apply (proj1 (invoice_update_unique ledger 2 F2 renumber_to_f_001 eq_refl
                    ltac:(discriminate) ltac:(discriminate)
                    ltac:(discriminate)) ND).
    held_eval F1.
  - apply (proj2 (invoice_update_unique ledger 2 F2 no_invoice_key eq_refl
                    ltac:(discriminate) ltac:(discriminate)
                    ltac:(discriminate))).
    not_held_eval.
Defined.

Lemma toggle_twice_witness :
  lookup Facture.id 2 (factures ledger) = Some F2
  /\ NoDup (map Facture.id (factures ledger))
  /\ snd (step (InvoiceToggleFinalize 2)
            (snd (step (InvoiceToggleFinalize 2) ledger))) = ledger.
Proof.
  assert (ND : NoDup (map Facture.id (factures ledger))) by nodup_eval.
  exact (conj eq_refl (conj ND (toggle_twice ledger 2 F2 eq_refl ND))).
Defined.




Lemma add_return_effect_witness :
  let db' := snd (step (InvoiceAddReturn 2 one_of_product_2_back) ledger) in
  lookup Facture.id 2 (factures ledger) = Some F2
  /\ client_balance db' 1 = client_balance ledger 1
  /\ stock_disponible (stock_summary_for_product db' 2)
     = stock_disponible (stock_summary_for_product ledger 2) + 1.
Proof.
  intro db'.
  destruct (add_return_effect ledger 2 F2 one_of_product_2_back 2
              (Py.float_of_int 5) 1 106 eq_refl eq_refl eq_refl eq_refl
              eq_refl) as [_ [HB HS]].
  exact (conj eq_refl (conj (HB 1) (proj2 (HS 2)))).
Defined.

Lemma stock_entry_effect_witness :
  let db' := snd (step (StockEntryPost twenty_of_product_2) ledger) in
  StockEntryForm.qte_entree twenty_of_product_2 = Value 20
  /\ qte_entree (stock_summary_for_product db' 2)
     = qte_entree (stock_summary_for_product ledger 2) + 20
  /\ stock_disponible (stock_summary_for_product db' 1)
     = stock_disponible (stock_summary_for_product ledger 1) + 0.
Proof.
  intro db'.
  pose proof (stock_entry_effect ledger twenty_of_product_2 2 107 20
                eq_refl eq_refl eq_refl) as H.
  exact (conj eq_refl (conj (proj1 (H 2)) (proj2 (proj2 (H 1))))).
Defined.



Lemma keys_invariant_witness :
  keys_ok ledger
  /\ keys_ok (snd (step (InvoiceAddLine 1 two_of_product_1) ledger))
  /\ keys_ok started.
Proof.
  assert (K : keys_ok ledger) by (constructor; nodup_eval).
  refine (conj K (conj _ _)).
  - exact (proj1 (keys_invariant ledger) _ K).
  - apply (proj2 (keys_invariant started)).
    unfold started. repeat apply reachable_step. apply reachable_empty.
Defined.

Lemma stored_keys_stripped_witness :
  keys_stripped ledger
  /\ keys_stripped (snd (step (ProductUpdate 2 rename_to_ref_1) ledger))
  /\ keys_stripped started.
Proof.
  assert (S : keys_stripped ledger)
    by (split; repeat (constructor; [vm_compute; reflexivity|]); constructor).
  refine (conj S (conj _ _)).
  - exact (proj1 (stored_keys_stripped ledger) _ S).
  - apply (proj2 (stored_keys_stripped started)).
    unfold started. repeat apply reachable_step. apply reachable_empty.
Defined.

Lemma update_without_keys_witness :
  reachable started
  /\ snd (step (ClientUpdate 1 no_client_key) started) = started
  /\ snd (step (ProductUpdate 1 (no_product_key Blank Malformed)) started)
     = started
  /\ snd (step (InvoiceUpdate 1 no_invoice_key) started) = started.
Proof.
  assert (R : reachable started)
    by (unfold started; repeat apply reachable_step; apply reachable_empty).
  destruct (update_without_keys started R) as [HC [HP HI]].
  refine (conj R (conj _ (conj _ _))).
  - exact (f_equal snd (HC 1 _ eq_refl)).
  - exact (f_equal snd (HP 1 _ Blank Malformed eq_refl)).
  - exact (f_equal snd (HI 1 _ eq_refl)).
Defined.

Lemma coalesce_sum_int (l : list Z) :
  Sql.coalesce (Sql.sum_int l) 0 = Zsum l.
Proof.
  destruct l as [|x l]; [reflexivity|].
  unfold Sql.sum_int, Sql.coalesce. rewrite fold_left_Zadd. lia.
Qed.

Lemma find_key_rev_map {B : Type} (g : Z -> B) (k : Z) (keys : list Z) :
  find (fun kv => fst kv =? k) (rev (map (fun x => (x, g x)) keys))
  = if in_dec Z.eq_dec k keys then Some (k, g k) else None.
Proof.
  rewrite <- map_rev.
  destruct (in_dec Z.eq_dec k keys) as [Hin|Hout].
  - apply in_rev in Hin. induction (rev keys) as [|x l IH]; [destruct Hin|].
    cbn [map find fst]. destruct (Z.eqb_spec x k) as [->|E]; [reflexivity|].
    apply IH. destruct Hin as [H|H]; [contradiction|exact H].
  - assert (H : ~ In k (rev keys)) by (intro H; apply Hout, in_rev; exact H).
    induction (rev keys) as [|x l IH]; [reflexivity|].
    cbn [map find fst]. destruct (Z.eqb_spec x k) as [->|E].
    + exfalso. apply H. left. reflexivity.
    + apply IH. intro H'. apply H. right. exact H'.
Qed.

Lemma qin_received (db : DB) (pid : Z) : qin db pid = received_of db pid.
Proof.
  unfold qin, dict_get, qte_map, group_by, received_of.
  rewrite map_map. cbn [fst snd].
  rewrite (find_key_rev_map
             (fun k => Sql.coalesce
                         (Sql.sum_int
                            (map StockEntry.qte_entree
                               (filter (fun r => StockEntry.product_id r =? k)
                                       (stock_entries db)))) 0)).
  destruct (in_dec Z.eq_dec pid _) as [Hin|Hout]; cbn [snd].
  - apply coalesce_sum_int.
  - rewrite filter_none; [reflexivity|].
    intros e He. apply Z.eqb_neq. intro E. apply Hout.
    apply nodup_In. rewrite <- E. apply in_map. exact He.
Qed.

(** X18.  The received quantity that the product list shows for a product (the
    grouped query read through a dictionary) equals qte_entree of
    stock_summary_for_product for the same identifier, and is 0 for a product
    without stock entries. *)
Theorem qin_agrees_with_stock_summary (db : DB) (pid : Z) :
  qin db pid = qte_entree (stock_summary_for_product db pid)
  /\ ((forall e, In e (stock_entries db) -> StockEntry.product_id e <> pid) ->
      qin db pid = 0).
Proof.
  split.
  - rewrite qin_received. unfold stock_summary_for_product.
    cbn [qte_entree]. rewrite Sql_sum_int_Zsum. reflexivity.
  - intro H. rewrite qin_received. unfold received_of.
    rewrite filter_none; [reflexivity|].
    intros e He. apply Z.eqb_neq. apply H. exact He.
Qed.

Section Csv.

Local Open Scope nat_scope.










End Csv.


Lemma gate_closed (a : Action) :
  _auth_gate (request_of (Ledger a)) false = RedirectToLogin (path_of a).
Proof. destruct a; reflexivity. Qed.

Lemma gate_open (v : Visit) : _auth_gate (request_of v) true = Pass.
Proof.
  unfold _auth_gate.
  destruct (existsb _ PUBLIC_ENDPOINTS || _); reflexivity.
Qed.

Lemma gate_cases (request : Request) (logged_in : bool) :
  let head := before_dot (match endpoint request with
                          | Some e => e
                          | None => EmptyString
                          end) in
  let public := head = "login"%string \/ head = "static"%string
                \/ path request = "/favicon.ico"%string in
  (public \/ logged_in = true -> _auth_gate request logged_in = Pass)
  /\ (~ public -> logged_in = false ->
      _auth_gate request logged_in = RedirectToLogin (path request))
  /\ (forall A (view : A) redirect_login,
        ~ public ->
        login_required view redirect_login request logged_in
        = match _auth_gate request logged_in with
          | Pass => view
          | RedirectToLogin next => redirect_login next
          end).
Proof.
  intros head public. subst head public. unfold _auth_gate, login_required.
  cbn [PUBLIC_ENDPOINTS existsb].
  set (h := before_dot _).
  destruct (String.eqb_spec h "login") as [E1|E1];
    destruct (String.eqb_spec h "static") as [E2|E2];
    destruct (String.eqb_spec (path request) "/favicon.ico") as [E3|E3];
    cbn [orb]; (split; [|split]); intros; try tauto; try reflexivity;
    destruct logged_in; cbn [negb]; try reflexivity; try tauto;
    try discriminate; intuition congruence.
Qed.



Section AuthFacts.

Variables (LOGIN_USERNAME LOGIN_PASSWORD_HASH : string)
          (check_password_hash : string -> string -> bool).

Local Abbreviation visit' :=
  (visit LOGIN_USERNAME LOGIN_PASSWORD_HASH check_password_hash).
Local Abbreviation logs_in' :=
  (logs_in LOGIN_USERNAME LOGIN_PASSWORD_HASH check_password_hash).
Local Abbreviation browse' :=
  (browse LOGIN_USERNAME LOGIN_PASSWORD_HASH check_password_hash).

Lemma visit_logged_out (v : Visit) (db : DB) :
  snd (visit' v (false, db)) = (logs_in' v, db).
Proof.
  destruct v as [a| |form next|]; cbn [visit logs_in].
  - rewrite gate_closed. reflexivity.
  - reflexivity.
  - cbn [request_of _auth_gate endpoint before_dot PUBLIC_ENDPOINTS existsb
         orb String.eqb Ascii.eqb Bool.eqb andb].
    unfold login_post, accepted.
    destruct (_ && _); reflexivity.
  - reflexivity.
Qed.

Lemma browse_logged_out (vs : list Visit) (db : DB) :
  Forall (fun v => logs_in' v = false) vs ->
  browse' vs (false, db) = (false, db).
Proof.
  unfold browse. induction 1 as [|v vs Hv _ IH]; [reflexivity|].
  cbn [fold_left]. rewrite visit_logged_out, Hv. exact IH.
Qed.

Lemma visit_logout (logged_in : bool) (db : DB) :
  snd (visit' Logout (logged_in, db)) = (false, db).
Proof. destruct logged_in; reflexivity. Qed.

End AuthFacts.

(** X20.  A browser that is logged out and sends no login form with accepted
    credentials cannot change the database or become logged in, whatever
    sequence of requests it sends; each of its ledger requests is answered by
    a redirect to the login page carrying the request's path, and the same
    holds again after a logout. *)
Theorem no_write_without_login
    (LOGIN_USERNAME LOGIN_PASSWORD_HASH : string)
    (check_password_hash : string -> string -> bool)
    (vs : list Visit) (db : DB) :
  Forall (fun v =>
            logs_in LOGIN_USERNAME LOGIN_PASSWORD_HASH check_password_hash v
            = false) vs ->
  browse LOGIN_USERNAME LOGIN_PASSWORD_HASH check_password_hash vs (false, db)
  = (false, db)
  /\ (forall logged_in,
        browse LOGIN_USERNAME LOGIN_PASSWORD_HASH check_password_hash
          (Logout :: vs) (logged_in, db)
        = (false, db))
  /\ (forall a,
        fst (visit LOGIN_USERNAME LOGIN_PASSWORD_HASH check_password_hash
               (Ledger a) (false, db))
        = SentToLogin (path_of a)).
Proof.
  intro H. split; [|split].
  - apply browse_logged_out. exact H.
  - intro l. unfold browse. cbn [fold_left]. rewrite visit_logout.
    apply browse_logged_out. exact H.
  - intro a. cbn [visit]. rewrite gate_closed. reflexivity.
Qed.

(** X21.  A login form whose stripped user name equals the configured one and
    whose password passes the check logs the browser in without touching the
    database, after which every ledger request passes the gate and is answered
    by its view; any other form shows the login page with a danger message and
    leaves the session and the database unchanged, and a wrong user name is
    refused whatever the password. *)
Theorem login_session
    (LOGIN_USERNAME LOGIN_PASSWORD_HASH : string)
    (check_password_hash : string -> string -> bool)
    (form : LoginForm.t) (next : option string) (logged_in : bool)
    (db : DB) :
  let go := visit LOGIN_USERNAME LOGIN_PASSWORD_HASH check_password_hash in
  let ok := accepted LOGIN_USERNAME LOGIN_PASSWORD_HASH check_password_hash
              form in
  (ok = true ->
   snd (go (LoginPost form next) (logged_in, db)) = (true, db)
   /\ forall a,
        go (Ledger a) (true, db)
        = (Answered (fst (step a db)), (true, snd (step a db))))
  /\ (ok = false ->
      go (LoginPost form next) (logged_in, db)
      = (LoginPage (Some (mkFlash "Identifiants invalides." "danger")),
         (logged_in, db)))
  /\ (Py.strip (form_get (LoginForm.username form) "") <> LOGIN_USERNAME ->
      ok = false).
Proof.
  intros go ok. subst go ok. unfold accepted.
  split; [|split].
  - intro H. split.
    + cbn [visit request_of]. rewrite (proj1 (gate_cases _ logged_in));
        [|left; left; reflexivity].
      unfold login_post. rewrite H. reflexivity.
    + intro a. cbn [visit]. rewrite gate_open.
      destruct (step a db). reflexivity.
  - intro H. cbn [visit request_of]. rewrite (proj1 (gate_cases _ logged_in));
      [|left; left; reflexivity].
    unfold login_post. rewrite H. reflexivity.
  - intro H. apply andb_false_iff. left. apply String.eqb_neq. exact H.
Qed.

Section SumFacts.

Local Open Scope Qc_scope.

Lemma fold_left_add_map {A : Type} (g : A -> Qc) (l : list A) (a : Qc) :
  fold_left (fun acc r => acc + g r) l a = a + Qsum (map g l).
Proof.
  revert a. induction l as [|x l IH]; intro a; cbn [fold_left map].
  - cbn. ring.
  - rewrite IH, Qsum_cons. ring.
Qed.




End SumFacts.







Lemma inventory_runs (order_by_text :
                        forall A : Type, (A -> string) -> list A -> list A)
    (db : DB) :
  let rows :=
    map (inventory_row db)
      (order_by_text _ Product.nom_produit (products db)) in
  view (inventory order_by_text) db
  = (inr (mkInventoryPage rows
            (Qsum (map InventoryRow.total_achat rows))
            (Qsum (map InventoryRow.total_vente rows))
            (Qsum (map InventoryRow.total_vente rows)
             - Qsum (map InventoryRow.total_achat rows))%Qc),
     db).
Proof.
  cbv zeta. unfold view, inventory, bind, query, ret. cbn [stored].
  rewrite !fold_left_add_map.
  replace (Q2Qc 0 + Qsum (map InventoryRow.total_vente
                           (map (inventory_row db)
                              (order_by_text Product.t Product.nom_produit
                                 (products db)))))%Qc
    with (Qsum (map InventoryRow.total_vente
                  (map (inventory_row db)
                     (order_by_text Product.t Product.nom_produit
                        (products db))))) by ring.
  replace (Q2Qc 0 + Qsum (map InventoryRow.total_achat
                           (map (inventory_row db)
                              (order_by_text Product.t Product.nom_produit
                                 (products db)))))%Qc
    with (Qsum (map InventoryRow.total_achat
                  (map (inventory_row db)
                     (order_by_text Product.t Product.nom_produit
                        (products db))))) by ring.
  reflexivity.
Qed.

Lemma inventory_row_summary (db : DB) (p : Product.t) :
  InventoryRow.qte_entree (inventory_row db p)
  = qte_entree (stock_summary_for_product db (Product.id p))
  /\ InventoryRow.qte_vendu (inventory_row db p)
     = qte_vendue (stock_summary_for_product db (Product.id p))
  /\ InventoryRow.stock (inventory_row db p)
     = stock_disponible (stock_summary_for_product db (Product.id p)).
Proof. repeat split. Qed.

(** X22.  The inventory page has one row per product, whatever order the
    engine lists them in, and each row's received, sold and available
    quantities are those of stock_summary_for_product for that product; the
    page writes nothing. *)
Theorem inventory_rows_agree
    (order_by_text : forall A : Type, (A -> string) -> list A -> list A)
    (db : DB) :
  (forall A col l, Permutation (order_by_text A col l) l) ->
  exists page,
    view (inventory order_by_text) db = (inr page, db)
    /\ Permutation (map InventoryRow.ref (inventory_rows page))
         (map Product.ref_produit (products db))
    /\ forall r, In r (inventory_rows page) ->
         exists p, In p (products db)
           /\ InventoryRow.ref r = Product.ref_produit p
           /\ InventoryRow.nom r = Product.nom_produit p
           /\ InventoryRow.qte_entree r
              = qte_entree (stock_summary_for_product db (Product.id p))
           /\ InventoryRow.qte_vendu r
              = qte_vendue (stock_summary_for_product db (Product.id p))
           /\ InventoryRow.stock r
              = stock_disponible
                  (stock_summary_for_product db (Product.id p)).
Proof.
  intro Hperm. eexists. split; [apply inventory_runs|].
  cbn [inventory_rows]. split.
  - rewrite map_map. cbn [inventory_row InventoryRow.ref].
    apply Permutation_map, Hperm.
  - intros r Hr. apply in_map_iff in Hr. destruct Hr as [p [<- Hp]].
    exists p. split.
    + eapply Permutation_in; [apply Hperm | exact Hp].
    + repeat split.
Qed.


Lemma fold_insert_Permutation {A : Type} (ins : A -> list A -> list A) :
  (forall x l, Permutation (ins x l) (x :: l)) ->
  forall l, Permutation (fold_right ins [] l) l.
Proof.
  intros H l. induction l as [|x l IH]; cbn [fold_right]; [constructor|].
  rewrite H. constructor. exact IH.
Qed.



Lemma sort_by_text_Permutation (A : Type) (col : A -> string) (l : list A) :
  Permutation (sort_by_text A col l) l.
Proof.
  apply fold_insert_Permutation. intros x k.
  induction k as [|y k IH]; cbn [insert_by_text]; [reflexivity|].
  destruct (String.leb (col x) (col y)); [reflexivity|].
  rewrite IH. apply perm_swap.
Qed.



Section Detail.

Variable order_by_text : forall A : Type, (A -> string) -> list A -> list A.
Variable db : DB.
Variable k : Z.

Local Abbreviation invs :=
  (order_by_date_desc
     (filter (fun i => (Facture.client_id i =? k)
                       && Bool.eqb (Facture.finalized i) true)
             (factures db))).




End Detail.









Lemma qin_agrees_with_stock_summary_witness :
  (forall e, In e (stock_entries ledger) -> StockEntry.product_id e <> 3)
  /\ qin ledger 3 = 0
  /\ qin ledger 1 = qte_entree (stock_summary_for_product ledger 1).
Proof.
  assert (H : forall e, In e (stock_entries ledger) ->
                        StockEntry.product_id e <> 3).
  { intros e He; cbn in He.
    repeat (destruct He as [<-|He]; [discriminate|]). destruct He. }
  exact (conj H (conj (proj2 (qin_agrees_with_stock_summary ledger 3) H)
                   (proj1 (qin_agrees_with_stock_summary ledger 1)))).
Defined.


Lemma no_write_without_login_witness :
  let vs := [Ledger (ClientDelete 3); LoginPost bad_login None; LoginGet;
             Ledger (InvoiceToggleFinalize 2)] in
  Forall (fun v => logs_in "admin" "terces" reversed_check v = false) vs
  /\ browse "admin" "terces" reversed_check vs (false, ledger)
     = (false, ledger)
  /\ browse "admin" "terces" reversed_check (Logout :: vs) (true, ledger)
     = (false, ledger)
  /\ fst (visit "admin" "terces" reversed_check (Ledger (ClientDelete 3))
            (false, ledger))
     = SentToLogin "/clients/3/delete".
Proof.
  intro vs.
  assert (H : Forall (fun v => logs_in "admin" "terces" reversed_check v
                               = false) vs)
    by (repeat constructor).
  destruct (no_write_without_login "admin" "terces" reversed_check vs ledger H)
    as [H1 [H2 H3]].
  exact (conj H (conj H1 (conj (H2 true) (H3 (ClientDelete 3))))).
Defined.

Lemma login_session_witness :
  accepted "admin" "terces" reversed_check good_login = true
  /\ accepted "admin" "terces" reversed_check bad_login = false
  /\ snd (visit "admin" "terces" reversed_check
            (LoginPost good_login (Some "/inventory"%string)) (false, ledger))
     = (true, ledger)
  /\ visit "admin" "terces" reversed_check (LoginPost bad_login None)
       (false, ledger)
     = (LoginPage (Some (mkFlash "Identifiants invalides." "danger")),
        (false, ledger)).
Proof.
  refine (conj eq_refl (conj eq_refl (conj _ _))).
  - exact (proj1 (proj1 (login_session "admin" "terces" reversed_check
                           good_login (Some "/inventory"%string) false
                           ledger) eq_refl)).
  - exact (proj1 (proj2 (login_session "admin" "terces" reversed_check
                           bad_login None false ledger)) eq_refl).
Defined.

Lemma inventory_rows_agree_witness :
  (forall A col l, Permutation (sort_by_text A col l) l)
  /\ exists page,
       view (inventory sort_by_text) ledger = (inr page, ledger)
       /\ Permutation (map InventoryRow.ref (inventory_rows page))
            ["REF-1"; "REF-2"; "REF-3"; "REF-4"]%string.
Proof.
  split; [exact sort_by_text_Permutation|].
  destruct (inventory_rows_agree sort_by_text ledger sort_by_text_Permutation)
    as [page [Hv [Hp _]]].
  exists page. exact (conj Hv Hp).
Defined.




